(** * SharePoint file retrieval: the discovery utility and the HTTP service

    A shallow embedding of [get_site_drive_ids.py] and [main_bkp.py].
    Python strings are sequences of Unicode code points; awaited network
    calls and prints are the effects of a small free monad; exceptions are
    values of an inductive type with the class tests the [except] clauses
    perform. *)

From Stdlib Require Import ZArith NArith String Ascii List Lia Floats DecimalString.
From stdpp Require Import base list gmap.

Open Scope string_scope.
Open Scope list_scope.

(** ** Python strings *)

Module PyStr.

(** A [str] is a list of code points. *)
Abbreviation str := (list N).

(** The code points of an ASCII literal of the source. *)
Fixpoint lit (s : string) : str :=
  match s with
  | EmptyString => []
  | String a s' => N_of_ascii a :: lit s'
  end.
Arguments lit : simpl never.

Definition SPACE : N := 32%N.

(** [str.isspace] on one code point: the characters [str.strip()] removes. *)
Definition is_space (c : N) : bool :=
  ((9 <=? c) && (c <=? 13) || (28 <=? c) && (c <=? 32)
   || (c =? 133) || (c =? 160) || (c =? 5760)
   || (8192 <=? c) && (c <=? 8202)
   || (c =? 8232) || (c =? 8233) || (c =? 8239) || (c =? 8287)
   || (c =? 12288))%N.

Fixpoint lstrip (s : str) : str :=
  match s with
  | [] => []
  | c :: s' => if is_space c then lstrip s' else s
  end.

Definition rstrip (s : str) : str := rev (lstrip (rev s)).

(** [s.strip()] *)
Definition strip (s : str) : str := rstrip (lstrip s).

Fixpoint starts_with (p s : str) : bool :=
  match p, s with
  | [], _ => true
  | _ :: _, [] => false
  | a :: p', b :: s' => (a =? b)%N && starts_with p' s'
  end.

(** Left-to-right scan of [s.replace(old, new)] for a non-empty [old]:
    [skip] counts the characters of a match still to be passed over. *)
Fixpoint replace_from (old new : str) (skip : nat) (s : str) : str :=
  match s with
  | [] => []
  | c :: s' =>
      match skip with
      | S k => replace_from old new k s'
      | O =>
          if starts_with old s
          then new ++ replace_from old new (length old - 1) s'
          else c :: replace_from old new 0 s'
      end
  end.

(** [s.replace(old, new)]: every non-overlapping occurrence, leftmost first;
    an empty [old] matches before every character and at the end. *)
Definition replace (old new s : str) : str :=
  match old with
  | [] => new ++ flat_map (fun c => c :: new) s
  | _ :: _ => replace_from old new 0 s
  end.

(** Truth value of a string: non-empty. *)
Definition str_truthy (s : str) : bool :=
  match s with [] => false | _ :: _ => true end.

End PyStr.
Export PyStr.

(** ** Decoded JSON values, as [json.loads] / [resp.json()] produce them *)

Set Warnings "-register-all".

Inductive json :=
| JNull
| JBool (b : bool)
| JInt (z : Z)
| JFloat (f : float)
| JStr (s : str)
| JArr (l : list json)
| JObj (items : list (str * json)).

(** [bool(v)], the test behind [if not v]. *)
Definition truthy (v : json) : bool :=
  match v with
  | JNull => false
  | JBool b => b
  | JInt z => negb (z =? 0)%Z
  | JFloat f => negb (PrimFloat.eqb f 0%float)
  | JStr s => str_truthy s
  | JArr l => match l with [] => false | _ :: _ => true end
  | JObj items => match items with [] => false | _ :: _ => true end
  end.

(** Lookup in the items of a dict. *)
Fixpoint assoc (key : str) (items : list (str * json)) : option json :=
  match items with
  | [] => None
  | (k, v) :: rest => if decide (k = key) then Some v else assoc key rest
  end.

Inductive method := GET | POST.

(** An outbound HTTP request as the clients are given it;
    [req_follow_redirects] is the argument passed, or else the default of
    the client ([requests] follows redirects, [httpx] does not). *)
Record request := {
  req_method : method;
  req_url : str;
  req_headers : list (str * str);
  req_data : list (str * str);
  req_follow_redirects : bool
}.

(** An accessor of a response object that either yields a value or raises
    with the given message. *)
Inductive attempt (A : Type) :=
| Got (a : A)
| Fails (msg : str).
Arguments Got {A} a.
Arguments Fails {A} msg.

(** What the code observes of a [requests.Response]. *)
Record RqResponse := {
  rq_status_code : Z;
  rq_reason : str;
  rq_text : str;
  rq_json : attempt json
}.

(** What the code observes of an [httpx.Response].  [hx_text] is
    [resp.text]: httpx decodes the body with [errors="replace"], so bytes
    that are not valid in the encoding come out as U+FFFD and the text is
    still produced; the accessor fails only when the codec itself refuses
    to work, and then with a [UnicodeError]. *)
Record HxResponse := {
  hx_status_code : Z;
  hx_json : attempt json;
  hx_text : attempt str
}.

(** ** Exceptions *)

Inductive exn :=
| RuntimeError (msg : str)
| HTTPException (status_code : Z) (detail : str)
| HTTPStatusError (msg : str) (response : HxResponse)
| TransportError (msg : str)
| RequestsHTTPError (msg : str) (response : RqResponse)
| RequestsConnectionError (msg : str)
| JSONDecodeError (msg : str)
| UnicodeError (msg : str)
| UnicodeDecodeError (msg : str)
| AttributeError (v : json) (attr : str)
| KeyError (key : json)
| IndexError (v : json)
| TypeError (v : json).

(** [isinstance(exc, RuntimeError)] *)
Definition is_RuntimeError (e : exn) : bool :=
  match e with RuntimeError _ => true | _ => false end.

(** [isinstance(exc, Exception)]: every exception modelled here. *)
Definition is_Exception (e : exn) : bool := true.

(** [isinstance(exc, httpx.HTTPError)]: status errors and transport errors. *)
Definition is_httpx_HTTPError (e : exn) : bool :=
  match e with HTTPStatusError _ _ | TransportError _ => true | _ => false end.

(** [isinstance(exc, httpx.HTTPStatusError)] *)
Definition is_httpx_HTTPStatusError (e : exn) : bool :=
  match e with HTTPStatusError _ _ => true | _ => false end.

(** [isinstance(exc, requests.HTTPError)] *)
Definition is_requests_HTTPError (e : exn) : bool :=
  match e with RequestsHTTPError _ _ => true | _ => false end.

(** [isinstance(exc, UnicodeDecodeError)]: a plain [UnicodeError] is of
    the parent class and does not pass. *)
Definition is_UnicodeDecodeError (e : exn) : bool :=
  match e with UnicodeDecodeError _ => true | _ => false end.

(** Texts produced by the interpreter and the libraries rather than by the
    repository: they are parameters of the development. *)
Class Runtime := {
  (** [str(v)] of a value that is not a string *)
  value_str : json -> str;
  (** message of the error [httpx.Response.raise_for_status] raises *)
  hx_status_text : HxResponse -> str;
  (** message of the error [requests.Response.raise_for_status] raises *)
  rq_status_text : RqResponse -> str;
  (** [str(exc)] of an interpreter or framework exception *)
  other_exn_text : exn -> str;
  (** pydantic's conversion to [str] of a JSON value that is neither a
      string nor null ([None]: a validation error) *)
  coerce_str : json -> option str
}.

(** ** Programs: awaited network calls, prints and exceptions *)

Inductive stream := Stdout | Stderr.

(** The outcome of handing a request to the HTTP client: a response object,
    or no response at all (connection failure, timeout, ...) with the
    client's message. *)
Inductive outcome (R : Type) :=
| Responded (resp : R)
| Failed (msg : str).
Arguments Responded {R} resp.
Arguments Failed {R} msg.

(** A program over responses of type [R] returning an [A]: every [Call] is
    one outbound request at which the program waits for the outcome. *)
Inductive prog (R A : Type) :=
| Ret (a : A)
| Raise (e : exn)
| Call (r : request) (k : outcome R -> prog R A)
| Print (s : stream) (line : str) (k : prog R A).
Arguments Ret {R A} a.
Arguments Raise {R A} e.
Arguments Call {R A} r k.
Arguments Print {R A} s line k.

Fixpoint bind {R A B} (p : prog R A) (f : A -> prog R B) : prog R B :=
  match p with
  | Ret a => f a
  | Raise e => Raise e
  | Call r k => Call r (fun o => bind (k o) f)
  | Print s line k => Print s line (bind k f)
  end.

Notation "'let*' x ':=' p 'in' q" := (bind p (fun x => q))
  (at level 10, x name, p at level 100, q at level 200).

(** [try: body except C as exc: handler], where [cls] is the class test of
    the clause; an exception of another class keeps propagating. *)
Fixpoint try_except {R A} (body : prog R A) (cls : exn -> bool)
    (handler : exn -> prog R A) : prog R A :=
  match body with
  | Ret a => Ret a
  | Raise e => if cls e then handler e else Raise e
  | Call r k => Call r (fun o => try_except (k o) cls handler)
  | Print s line k => Print s line (try_except k cls handler)
  end.

(** [print(line, file=s)] *)
Definition print {R} (s : stream) (line : str) : prog R unit :=
  Print s line (Ret tt).

(** Lift a pure computation that may raise. *)
Definition lift {R A} (x : exn + A) : prog R A :=
  match x with inl e => Raise e | inr a => Ret a end.

(** What an observer of a run sees, in order. *)
Inductive event (R : Type) :=
| EvCall (r : request) (o : outcome R)
| EvPrint (s : stream) (line : str).
Arguments EvCall {R} r o.
Arguments EvPrint {R} s line.

(** The network answers the [n]-th request of a run. *)
Abbreviation network R := (nat -> request -> outcome R).

(** Run a program to completion against a network, from call number [n]. *)
Fixpoint run {R A} (net : network R) (n : nat) (p : prog R A)
    : list (event R) * (exn + A) :=
  match p with
  | Ret a => ([], inr a)
  | Raise e => ([], inl e)
  | Call r k =>
      let o := net n r in
      let '(evs, res) := run net (S n) (k o) in
      (EvCall r o :: evs, res)
  | Print s line k =>
      let '(evs, res) := run net n k in
      (EvPrint s line :: evs, res)
  end.

(** The requests of a trace, and the lines printed on a stream. *)
Fixpoint calls_of {R} (evs : list (event R)) : list request :=
  match evs with
  | [] => []
  | EvCall r _ :: rest => r :: calls_of rest
  | EvPrint _ _ :: rest => calls_of rest
  end.

Fixpoint printed {R} (s : stream) (evs : list (event R)) : list str :=
  match evs with
  | [] => []
  | EvCall _ _ :: rest => printed s rest
  | EvPrint s' line :: rest =>
      match s, s' with
      | Stdout, Stdout | Stderr, Stderr => line :: printed s rest
      | _, _ => printed s rest
      end
  end.

(** ** Operations of the interpreter and of the two HTTP clients *)

Section Library.
Context `{RT : Runtime}.

(** The text an f-string inserts for a value. *)
Definition py_str (v : json) : str :=
  match v with
  | JStr s => s
  | _ => value_str v
  end.

(** [str(exc)] *)
Definition exn_str (e : exn) : str :=
  match e with
  | RuntimeError msg => msg
  | HTTPStatusError msg _ => msg
  | TransportError msg => msg
  | RequestsHTTPError msg _ => msg
  | RequestsConnectionError msg => msg
  | JSONDecodeError msg => msg
  | UnicodeError msg => msg
  | UnicodeDecodeError msg => msg
  | _ => other_exn_text e
  end.

(** [v.get(key, default)]: only a dict has the method. *)
Definition py_get (v : json) (key : str) (default : json) : exn + json :=
  match v with
  | JObj items => inr (match assoc key items with Some x => x | None => default end)
  | _ => inl (AttributeError v (lit "get"))
  end.

(** [v[i]] for an integer [i]. *)
Definition getitem_int (v : json) (i : Z) : exn + json :=
  match v with
  | JArr l =>
      let n := Z.of_nat (length l) in
      let j := (if i <? 0 then i + n else i)%Z in
      if ((0 <=? j) && (j <? n))%Z
      then match nth_error l (Z.to_nat j) with
           | Some x => inr x
           | None => inl (IndexError v)
           end
      else inl (IndexError v)
  | JStr s =>
      let n := Z.of_nat (length s) in
      let j := (if i <? 0 then i + n else i)%Z in
      if ((0 <=? j) && (j <? n))%Z
      then match nth_error s (Z.to_nat j) with
           | Some c => inr (JStr [c])
           | None => inl (IndexError v)
           end
      else inl (IndexError v)
  | JObj _ => inl (KeyError (JInt i))
  | _ => inl (TypeError v)
  end.

(** [v[key]] for a string [key]. *)
Definition getitem_str (v : json) (key : str) : exn + json :=
  match v with
  | JObj items =>
      match assoc key items with
      | Some x => inr x
      | None => inl (KeyError (JStr key))
      end
  | _ => inl (TypeError v)
  end.

(** [requests.get] / [requests.post]: a response, or a
    [requests.RequestException] when there is none. *)
Definition requests_send (r : request) : prog RqResponse RqResponse :=
  Call r (fun o =>
    match o with
    | Responded resp => Ret resp
    | Failed msg => Raise (RequestsConnectionError msg)
    end).

(** [requests.Response.raise_for_status]: raises for 4xx and 5xx. *)
Definition rq_is_error (resp : RqResponse) : bool :=
  ((400 <=? rq_status_code resp) && (rq_status_code resp <? 600))%Z.

Definition rq_raise_for_status (resp : RqResponse) : prog RqResponse unit :=
  if rq_is_error resp
  then Raise (RequestsHTTPError (rq_status_text resp) resp)
  else Ret tt.

(** [bool(resp)] of a [requests.Response] is its [ok] property: whether
    [raise_for_status] would pass. *)
Definition rq_bool (resp : RqResponse) : bool := negb (rq_is_error resp).

(** [resp.json()] *)
Definition rq_json_of (resp : RqResponse) : prog RqResponse json :=
  match rq_json resp with
  | Got v => Ret v
  | Fails msg => Raise (JSONDecodeError msg)
  end.

(** [await client.get(...)] / [await client.post(...)] inside
    [async with httpx.AsyncClient()]: a response, or an
    [httpx.RequestError] when there is none. *)
Definition httpx_send (r : request) : prog HxResponse HxResponse :=
  Call r (fun o =>
    match o with
    | Responded resp => Ret resp
    | Failed msg => Raise (TransportError msg)
    end).

(** [httpx.Response.raise_for_status]: raises unless the status is 2xx. *)
Definition hx_is_success (resp : HxResponse) : bool :=
  ((200 <=? hx_status_code resp) && (hx_status_code resp <=? 299))%Z.

Definition hx_raise_for_status (resp : HxResponse) : prog HxResponse unit :=
  if hx_is_success resp
  then Ret tt
  else Raise (HTTPStatusError (hx_status_text resp) resp).

(** [resp.json()] *)
Definition hx_json_of (resp : HxResponse) : prog HxResponse json :=
  match hx_json resp with
  | Got v => Ret v
  | Fails msg => Raise (JSONDecodeError msg)
  end.

(** [resp.text]: the decoded text, or the [UnicodeError] of a codec that
    refuses to work; a [UnicodeDecodeError] is never raised here. *)
Definition hx_text_of (resp : HxResponse) : prog HxResponse str :=
  match hx_text resp with
  | Got s => Ret s
  | Fails msg => Raise (UnicodeError msg)
  end.

End Library.

(** ** The discovery utility, [get_site_drive_ids.py] *)

Module Discovery.
Section Discovery.
Context `{RT : Runtime}.

Abbreviation io := (prog RqResponse).

Definition SCOPE : str := lit "https://graph.microsoft.com/.default".

(** [AUTH_TEMPLATE.format(tenant_id=tenant_id)] *)
Definition token_url (tenant_id : str) : str :=
  lit "https://login.microsoftonline.com/" ++ tenant_id ++ lit "/oauth2/v2.0/token".

Definition token_request (tenant_id client_id client_secret : str) : request :=
  {| req_method := POST;
     req_url := token_url tenant_id;
     req_headers := [];
     req_data := [ (lit "client_id", client_id);
                   (lit "client_secret", client_secret);
                   (lit "scope", SCOPE);
                   (lit "grant_type", lit "client_credentials") ];
     req_follow_redirects := true |}.

Definition acquire_token (tenant_id client_id client_secret : str) : io json :=
  let* resp := requests_send (token_request tenant_id client_id client_secret) in
  let* _ :=
    try_except (rq_raise_for_status resp) is_requests_HTTPError
      (fun exc =>
         Raise (RuntimeError
           (lit "Failed to obtain token: " ++
            match exc with
            | RequestsHTTPError _ response =>
                if rq_bool response then rq_text response else exn_str exc
            | _ => exn_str exc
            end))) in
  let* body := rq_json_of resp in
  let* token := lift (py_get body (lit "access_token") JNull) in
  if negb (truthy token)
  then Raise (RuntimeError (lit "Token endpoint returned no access_token"))
  else Ret token.

Definition site_url (domain site_name : str) : str :=
  lit "https://graph.microsoft.com/v1.0/sites/" ++ domain ++ lit ":/"
    ++ (lit "sites/" ++ site_name).

Definition get_request (url : str) (headers : list (str * str)) : request :=
  {| req_method := GET; req_url := url; req_headers := headers;
     req_data := []; req_follow_redirects := true |}.

Definition get_site_id (domain site_name : str) (headers : list (str * str))
    : io json :=
  let url := site_url domain site_name in
  let* resp := requests_send (get_request url headers) in
  let* _ := rq_raise_for_status resp in
  let* data := rq_json_of resp in
  let* site_id := lift (py_get data (lit "id") JNull) in
  if negb (truthy site_id)
  then Raise (RuntimeError (lit "Failed to obtain site id from response"))
  else Ret site_id.

Definition drives_url (site_id : json) : str :=
  lit "https://graph.microsoft.com/v1.0/sites/" ++ py_str site_id ++ lit "/drives".

Definition get_default_drive_id (site_id : json) (headers : list (str * str))
    : io json :=
  let url := drives_url site_id in
  let* resp := requests_send (get_request url headers) in
  let* _ := rq_raise_for_status resp in
  let* body := rq_json_of resp in
  let* drives := lift (py_get body (lit "value") (JArr [])) in
  if negb (truthy drives)
  then Raise (RuntimeError (lit "The specified site has no drives"))
  else
    let* first := lift (getitem_int drives 0) in
    lift (getitem_str first (lit "id")).

(** The parsed command line: five required options. *)
Record args := {
  site_name : str;
  domain : str;
  tenant_id : str;
  client_id : str;
  client_secret : str
}.

Definition auth_headers (token : json) : list (str * str) :=
  [ (lit "Authorization", lit "Bearer " ++ py_str token) ].

(** [main] after argument parsing; the result is the exit status it
    returns.  A [try] block whose handler returns early yields [inl]. *)
Definition main (a : args) : io Z :=
  let* t :=
    try_except
      (let* token := acquire_token (tenant_id a) (client_id a) (client_secret a) in
       Ret (inr token))
      is_RuntimeError
      (fun exc =>
         let* _ := print Stderr (lit "Error acquiring token: " ++ exn_str exc) in
         Ret (inl 1%Z)) in
  match t with
  | inl status => Ret status
  | inr token =>
      let headers := auth_headers token in
      let* s :=
        try_except
          (let* site_id := get_site_id (domain a) (site_name a) headers in
           Ret (inr site_id))
          is_Exception
          (fun exc =>
             let* _ := print Stderr (lit "Error obtaining site ID: " ++ exn_str exc) in
             Ret (inl 1%Z)) in
      match s with
      | inl status => Ret status
      | inr site_id =>
          let* d :=
            try_except
              (let* drive_id := get_default_drive_id site_id headers in
               Ret (inr drive_id))
              is_Exception
              (fun exc =>
                 let* _ := print Stderr (lit "Error obtaining drive ID: " ++ exn_str exc) in
                 Ret (inl 1%Z)) in
          match d with
          | inl status => Ret status
          | inr drive_id =>
              let* _ := print Stdout (lit "SITE_ID=" ++ py_str site_id) in
              let* _ := print Stdout (lit "DRIVE_ID=" ++ py_str drive_id) in
              Ret 0%Z
          end
      end
  end.

End Discovery.
End Discovery.

(** ** The file retrieval service, [main_bkp.py] *)

Module Service.

(** *** Start-up configuration *)

(** [get_env_variable(name)] over the process environment as it is after
    [load_dotenv()]: a value that is missing or empty is refused. *)
Definition get_env_variable (environ : gmap str str) (name : str) : exn + str :=
  match environ !! name with
  | Some (c :: value) => inr (c :: value)
  | _ => inl (RuntimeError (lit "Missing required environment variable: " ++ name))
  end.

Record config := {
  TENANT_ID : str;
  CLIENT_ID : str;
  CLIENT_SECRET : str;
  SITE_ID : str;
  DRIVE_ID : str
}.

(** The names read at import time, in the order of the assignments. *)
Definition required_variables : list str :=
  [ lit "TENANT_ID"; lit "CLIENT_ID"; lit "CLIENT_SECRET"; lit "SITE_ID";
    lit "DRIVE_ID" ].

(** The module-level assignments: the first failing lookup aborts the
    import, so the application object is never created. *)
Definition startup (environ : gmap str str) : exn + config :=
  match get_env_variable environ (lit "TENANT_ID") with
  | inl e => inl e
  | inr tenant =>
  match get_env_variable environ (lit "CLIENT_ID") with
  | inl e => inl e
  | inr client =>
  match get_env_variable environ (lit "CLIENT_SECRET") with
  | inl e => inl e
  | inr secret =>
  match get_env_variable environ (lit "SITE_ID") with
  | inl e => inl e
  | inr site =>
  match get_env_variable environ (lit "DRIVE_ID") with
  | inl e => inl e
  | inr drive =>
      inr {| TENANT_ID := tenant; CLIENT_ID := client; CLIENT_SECRET := secret;
             SITE_ID := site; DRIVE_ID := drive |}
  end end end end end.

(** *** The request body *)

(** [FileRequest]: [fileName: str], [folder: Optional[str]]. *)
Record FileRequest := {
  fileName : str;
  folder : option str
}.

Inductive validation_error :=
| FieldRequired (name : str)
| NoneNotAllowed (name : str)
| NotAString (name : str)
| NotAnObject.

Section Validation.
Context `{RT : Runtime}.

(** A field annotated [str]: a JSON string is taken as it is, whatever its
    length; [null] is refused. *)
Definition validate_str (name : str) (v : json) : validation_error + str :=
  match v with
  | JStr s => inr s
  | JNull => inl (NoneNotAllowed name)
  | _ => match coerce_str v with
         | Some s => inr s
         | None => inl (NotAString name)
         end
  end.

(** A field annotated [Optional[str]]: [null] is accepted as [None]. *)
Definition validate_optional_str (name : str) (v : json)
    : validation_error + option str :=
  match v with
  | JNull => inr None
  | _ => match validate_str name v with
         | inl e => inl e
         | inr s => inr (Some s)
         end
  end.

(** [fileName = Field(...)]: required, no further constraint. *)
Definition field_fileName (items : list (str * json)) : validation_error + str :=
  match assoc (lit "fileName") items with
  | None => inl (FieldRequired (lit "fileName"))
  | Some v => validate_str (lit "fileName") v
  end.

(** [folder = Field("")]: the default is the empty string. *)
Definition field_folder (items : list (str * json))
    : validation_error + option str :=
  match assoc (lit "folder") items with
  | None => inr (Some [])
  | Some v => validate_optional_str (lit "folder") v
  end.

(** Validation of a decoded JSON body against [FileRequest]; the errors of
    all fields are collected. *)
Definition parse_FileRequest (body : json)
    : list validation_error + FileRequest :=
  match body with
  | JObj items =>
      match field_fileName items, field_folder items with
      | inr n, inr f => inr {| fileName := n; folder := f |}
      | inl e1, inl e2 => inl [e1; e2]
      | inl e1, inr _ => inl [e1]
      | inr _, inl e2 => inl [e2]
      end
  | _ => inl [NotAnObject]
  end.

End Validation.

(** *** The handler *)

Section Handler.
Context `{RT : Runtime}.
Variable cfg : config.

Abbreviation aio := (prog HxResponse).

Definition AUTHORITY : str :=
  lit "https://login.microsoftonline.com/" ++ TENANT_ID cfg ++ lit "/oauth2/v2.0/token".

Definition SCOPE : str := lit "https://graph.microsoft.com/.default".

Definition token_request : request :=
  {| req_method := POST;
     req_url := AUTHORITY;
     req_headers := [];
     req_data := [ (lit "client_id", CLIENT_ID cfg);
                   (lit "client_secret", CLIENT_SECRET cfg);
                   (lit "scope", SCOPE);
                   (lit "grant_type", lit "client_credentials") ];
     req_follow_redirects := false |}.

Definition acquire_access_token : aio json :=
  let* response :=
    try_except
      (let* response := httpx_send token_request in
       let* _ := hx_raise_for_status response in
       Ret response)
      is_httpx_HTTPError
      (fun exc =>
         Raise (HTTPException 502
                  (lit "Failed to obtain access token: " ++ exn_str exc))) in
  let* token_data := hx_json_of response in
  let* access_token := lift (py_get token_data (lit "access_token") JNull) in
  if negb (truthy access_token)
  then Raise (HTTPException 500
                (lit "Authentication service returned no access token"))
  else Ret access_token.

(** The text an f-string inserts for an [Optional[str]]. *)
Definition format_folder (folder : option str) : str :=
  match folder with
  | Some s => s
  | None => lit "None"
  end.

(** [path], line 100 *)
Definition remote_path (folder : option str) (file_name : str) : str :=
  match folder with
  | Some s =>
      if str_truthy s
      then lit "/" ++ strip s ++ lit "/" ++ file_name
      else lit "/" ++ file_name
  | None => lit "/" ++ file_name
  end.

(** [encoded_path], line 101 *)
Definition encoded_path (folder : option str) (file_name : str) : str :=
  replace (lit " ") (lit "%20") (remote_path folder file_name).

Definition content_url (folder : option str) (file_name : str) : str :=
  lit "https://graph.microsoft.com/v1.0/drives/" ++ DRIVE_ID cfg ++ lit "/root:"
    ++ encoded_path folder file_name ++ lit ":/content".

Definition content_request (folder : option str) (file_name : str)
    (access_token : json) : request :=
  {| req_method := GET;
     req_url := content_url folder file_name;
     req_headers := [ (lit "Authorization", lit "Bearer " ++ py_str access_token) ];
     req_data := [];
     req_follow_redirects := true |}.

Definition download_file_by_path (folder : option str) (file_name : str)
    (access_token : json) : aio str :=
  let* resp :=
    try_except
      (let* resp := httpx_send (content_request folder file_name access_token) in
       let* _ := hx_raise_for_status resp in
       Ret resp)
      is_httpx_HTTPStatusError
      (fun exc =>
         match exc with
         | HTTPStatusError _ response =>
             if (hx_status_code response =? 404)%Z
             then Raise (HTTPException 404
                    (lit "Archivo '" ++ file_name ++ lit "' no encontrado en '"
                       ++ format_folder folder ++ lit "'"))
             else Raise (HTTPException 500
                    (lit "Error al acceder a Graph: " ++ exn_str exc))
         | _ => Raise exc
         end) in
  try_except (hx_text_of resp) is_UnicodeDecodeError
    (fun _ =>
       Raise (HTTPException 400
                (lit "El archivo no contiene datos de texto legibles."))).

Definition get_file (request : FileRequest) : aio str :=
  let* access_token := acquire_access_token in
  download_file_by_path (folder request) (fileName request) access_token.

(** *** The framework around the handler *)

Inductive content :=
| PlainText (text : str)
| Detail (detail : str)
| Errors (errs : list validation_error).

Record reply := { status : Z; body : content }.

(** How the framework answers for a handler: its return value as plain
    text with 200, an [HTTPException] with its own status and detail, any
    other exception with 500 and no detail. *)
Definition respond (handler : aio str) : aio reply :=
  try_except
    (let* text := handler in Ret {| status := 200; body := PlainText text |})
    is_Exception
    (fun exc =>
       match exc with
       | HTTPException code detail => Ret {| status := code; body := Detail detail |}
       | _ => Ret {| status := 500; body := PlainText (lit "Internal Server Error") |}
       end).

(** [POST /get_file] with a decoded JSON body: a body that does not
    validate is answered 422 without running the handler. *)
Definition post_get_file (payload : json) : aio reply :=
  match parse_FileRequest payload with
  | inl errs => Ret {| status := 422; body := Errors errs |}
  | inr request => respond (get_file request)
  end.

End Handler.
End Service.

(** ** Concurrent handling of requests by the service *)

Module Server.
Import Service.

(** The entry of a log: which task made the request and what came back. *)
Abbreviation entry := (nat * request * outcome HxResponse)%type.

(** In-flight tasks, one per accepted [POST /get_file], and the log of all
    outbound calls in the order the event loop completed them. *)
Record state := {
  tasks : list (prog HxResponse reply);
  log : list entry
}.

Definition initial : state := {| tasks := []; log := [] |}.

Section Server.
Context `{RT : Runtime}.
Variable cfg : config.

(** One step of the event loop: a new request is accepted, or one task
    suspended at an outbound call is resumed with that call's outcome.
    Which task runs next, and when requests arrive, is not constrained. *)
Inductive step : state -> state -> Prop :=
| step_accept st payload :
    step st {| tasks := tasks st ++ [post_get_file cfg payload]; log := log st |}
| step_resume st i r k o :
    tasks st !! i = Some (Call r k) ->
    step st {| tasks := <[i := k o]> (tasks st); log := log st ++ [(i, r, o)] |}.

Definition reachable (st : state) : Prop := rtc step initial st.

(** The same steps as functions, to replay a given schedule. *)
Inductive action :=
| Accept (payload : json)
| Resume (i : nat) (o : outcome HxResponse).

Definition perform (st : state) (a : action) : state :=
  match a with
  | Accept payload =>
      {| tasks := tasks st ++ [post_get_file cfg payload]; log := log st |}
  | Resume i o =>
      match tasks st !! i with
      | Some (Call r k) =>
          {| tasks := <[i := k o]> (tasks st); log := log st ++ [(i, r, o)] |}
      | _ => st
      end
  end.

Definition replay (schedule : list action) : state :=
  fold_left perform schedule initial.

End Server.

(** The calls of task [i], in order, within a log. *)
Fixpoint own (i : nat) (l : list entry) : list (request * outcome HxResponse) :=
  match l with
  | [] => []
  | (j, r, o) :: rest =>
      if decide (j = i) then (r, o) :: own i rest else own i rest
  end.

(** [follows p l q]: program [p], resumed with the outcomes recorded in
    [l] at the calls recorded in [l], is now [q]. *)
Inductive follows {R A} : prog R A -> list (request * outcome R) -> prog R A -> Prop :=
| follows_here p : follows p [] p
| follows_call r k o l q :
    follows (k o) l q -> follows (Call r k) ((r, o) :: l) q.

End Server.

(** ** A runtime for the examples *)

Definition decimal (z : Z) : str := lit (NilZero.string_of_int (Z.to_int z)).

Definition sample_runtime : Runtime :=
  {| value_str := fun v =>
       match v with
       | JNull => lit "None"
       | JBool true => lit "True"
       | JBool false => lit "False"
       | JInt z => decimal z
       | _ => lit "<value>"
       end;
     hx_status_text := fun resp =>
       lit "HTTP status " ++ decimal (hx_status_code resp);
     rq_status_text := fun resp =>
       decimal (rq_status_code resp) ++ lit " Error: " ++ rq_reason resp;
     other_exn_text := fun _ => lit "<exception>";
     coerce_str := fun _ => None |}.

Definition sample_config : Service.config :=
  {| Service.TENANT_ID := lit "tenant-1";
     Service.CLIENT_ID := lit "client-1";
     Service.CLIENT_SECRET := lit "s3cret";
     Service.SITE_ID := lit "site-1";
     Service.DRIVE_ID := lit "drive-1" |}.

Definition sample_args : Discovery.args :=
  {| Discovery.site_name := lit "Ventas";
     Discovery.domain := lit "contoso.sharepoint.com";
     Discovery.tenant_id := lit "tenant-1";
     Discovery.client_id := lit "client-1";
     Discovery.client_secret := lit "s3cret" |}.

(** A tenant whose site has three document libraries. *)
Definition sample_token_reply : RqResponse :=
  {| rq_status_code := 200; rq_reason := lit "OK"; rq_text := lit "{}";
     rq_json := Got (JObj [ (lit "token_type", JStr (lit "Bearer"));
                            (lit "access_token", JStr (lit "tok-1")) ]) |}.

Definition sample_site_reply : RqResponse :=
  {| rq_status_code := 200; rq_reason := lit "OK"; rq_text := lit "{}";
     rq_json := Got (JObj [ (lit "id", JStr (lit "contoso.sharepoint.com,111,222"));
                            (lit "name", JStr (lit "Ventas")) ]) |}.

Definition sample_drives : list json :=
  [ JObj [ (lit "id", JStr (lit "b!first")); (lit "name", JStr (lit "Documents")) ];
    JObj [ (lit "id", JStr (lit "b!second")) ];
    JObj [ (lit "id", JStr (lit "b!third")) ] ].

Definition sample_drives_reply (drives : list json) : RqResponse :=
  {| rq_status_code := 200; rq_reason := lit "OK"; rq_text := lit "{}";
     rq_json := Got (JObj [ (lit "value", JArr drives) ]) |}.

Definition sample_network (drives : list json) : network RqResponse :=
  fun n _ =>
    match n with
    | 0 => Responded sample_token_reply
    | 1 => Responded sample_site_reply
    | _ => Responded (sample_drives_reply drives)
    end.

Definition sample_network_three : network RqResponse := sample_network sample_drives.

(** Answers of the identity provider and of Graph to the service. *)
Definition hx_token_denied : HxResponse :=
  {| hx_status_code := 401;
     hx_json := Got (JObj [ (lit "error", JStr (lit "invalid_client")) ]);
     hx_text := Got (lit "{}") |}.

Definition hx_token_missing : HxResponse :=
  {| hx_status_code := 200;
     hx_json := Got (JObj [ (lit "token_type", JStr (lit "Bearer")) ]);
     hx_text := Got (lit "{}") |}.

Definition hx_not_found : HxResponse :=
  {| hx_status_code := 404;
     hx_json := Got (JObj [ (lit "error", JStr (lit "itemNotFound")) ]);
     hx_text := Got (lit "{}") |}.

Definition hx_unavailable : HxResponse :=
  {| hx_status_code := 503;
     hx_json := Fails (lit "Expecting value");
     hx_text := Got (lit "Service Unavailable") |}.

(** Graph answers 200 with the two bytes FF FE, which are not valid
    UTF-8: the text is two replacement characters U+FFFD. *)
Definition hx_binary : HxResponse :=
  {| hx_status_code := 200;
     hx_json := Fails (lit "Expecting value");
     hx_text := Got [65533; 65533]%N |}.

(** Graph answers 200 and names a codec that refuses to decode. *)
Definition hx_codec_refuses : HxResponse :=
  {| hx_status_code := 200;
     hx_json := Fails (lit "Expecting value");
     hx_text := Fails (lit "undefined encoding") |}.

Definition sample_payload : json :=
  JObj [ (lit "fileName", JStr (lit "report.txt"));
         (lit "folder", JStr (lit "Reports")) ].

Definition sample_request : Service.FileRequest :=
  {| Service.fileName := lit "report.txt"; Service.folder := Some (lit "Reports") |}.

Definition hx_token (t : string) : HxResponse :=
  {| hx_status_code := 200;
     hx_json := Got (JObj [ (lit "access_token", JStr (lit t)) ]);
     hx_text := Got (lit "{}") |}.

Definition hx_file (text : string) : HxResponse :=
  {| hx_status_code := 200;
     hx_json := Fails (lit "Expecting value");
     hx_text := Got (lit text) |}.

(** Two overlapping requests: both tokens are granted before either file
    is fetched, and the second request is served first. *)
Definition sample_schedule : list Server.action :=
  [ Server.Accept (JObj [ (lit "fileName", JStr (lit "a.txt")) ]);
    Server.Accept (JObj [ (lit "fileName", JStr (lit "b.txt")) ]);
    Server.Resume 0 (Responded (hx_token "tok-A"));
    Server.Resume 1 (Responded (hx_token "tok-B"));
    Server.Resume 1 (Responded (hx_file "bbb"));
    Server.Resume 0 (Responded (hx_file "aaa")) ].

Definition sample_environ : gmap str str :=
  {[ lit "TENANT_ID" := lit "tenant-1";
     lit "CLIENT_ID" := lit "client-1";
     lit "CLIENT_SECRET" := lit "s3cret";
     lit "SITE_ID" := lit "site-1";
     lit "DRIVE_ID" := lit "drive-1" ]}.

(** Further answers to the discovery utility. *)
Definition rq_denied : RqResponse :=
  {| rq_status_code := 401; rq_reason := lit "Unauthorized";
     rq_text := lit "invalid_client: bad secret";
     rq_json := Got (JObj [ (lit "error", JStr (lit "invalid_client")) ]) |}.

Definition rq_no_token : RqResponse :=
  {| rq_status_code := 200; rq_reason := lit "OK"; rq_text := lit "{}";
     rq_json := Got (JObj [ (lit "token_type", JStr (lit "Bearer")) ]) |}.

Definition rq_site_without_id : RqResponse :=
  {| rq_status_code := 200; rq_reason := lit "OK"; rq_text := lit "{}";
     rq_json := Got (JObj [ (lit "name", JStr (lit "Ventas")) ]) |}.

Definition rq_not_found : RqResponse :=
  {| rq_status_code := 404; rq_reason := lit "Not Found"; rq_text := lit "{}";
     rq_json := Got (JObj [ (lit "error", JStr (lit "itemNotFound")) ]) |}.

Definition rq_no_value : RqResponse :=
  {| rq_status_code := 200; rq_reason := lit "OK"; rq_text := lit "{}";
     rq_json := Got (JObj [ (lit "@odata.context", JStr (lit "drives")) ]) |}.

(** The identity provider grants a token, the site lookup answers [site]
    and the drive listing answers [drives]. *)
Definition scripted_network (site drives : RqResponse) : network RqResponse :=
  fun n _ =>
    match n with
    | 0 => Responded sample_token_reply
    | 1 => Responded site
    | _ => Responded drives
    end.

(** The identity provider answers [token] and Graph answers [file]. *)
Definition service_network (token file : outcome HxResponse) : network HxResponse :=
  fun n _ =>
    match n with
    | 0 => token
    | _ => file
    end.

Definition hx_token_not_json : HxResponse :=
  {| hx_status_code := 200;
     hx_json := Fails (lit "Expecting value");
     hx_text := Got (lit "<html>proxy</html>") |}.

(** ** Auxiliary definitions used to state the properties *)

(** A string that is not empty and neither starts nor ends with
    whitespace. *)
Definition trimmed (s : str) : bool :=
  match s, rev s with
  | c :: _, d :: _ => negb (is_space c) && negb (is_space d)
  | _, _ => false
  end.

(** Whether a string contains a space character. *)
Definition has_space (s : str) : bool := existsb (N.eqb SPACE) s.


(** The first outbound request of a program, if it starts with one. *)
Definition first_call {R A} (p : prog R A) : option request :=
  match p with
  | Call r _ => Some r
  | _ => None
  end.

(** Character-wise percent-encoding of spaces: every space, and nothing
    else, becomes [%20]. *)
Definition percent_encode_spaces (s : str) : str :=
  flat_map (fun c => if (c =? SPACE)%N then lit "%20" else [c]) s.

(** A variable counts as set when it is present with a non-empty value. *)
Definition is_set (environ : gmap str str) (name : str) : bool :=
  match environ !! name with
  | Some (_ :: _) => true
  | _ => false
  end.

(** The configuration error naming a variable. *)
Definition missing_error (name : str) : exn :=
  RuntimeError (lit "Missing required environment variable: " ++ name).

(** The remote path in the words of the specification: [/{f}/{n}] for a
    non-empty folder, [/{n}] otherwise, then spaces encoded. *)
Definition spec_encoded_path (f n : str) : str :=
  percent_encode_spaces
    (if str_truthy f then lit "/" ++ f ++ lit "/" ++ n else lit "/" ++ n).

(** * Properties *)

(** ** Strings *)

Example lit_demo : lit "a b" = [97; 32; 98]%N.
Proof. reflexivity. Qed.

Example strip_demo : strip (lit "  My Docs ") = lit "My Docs".
Proof. reflexivity. Qed.

Example replace_demo :
  replace (lit "ab") (lit "X") (lit "abcabab") = lit "XcXX".
Proof. reflexivity. Qed.

Example replace_empty_demo :
  replace [] (lit "-") (lit "abc") = lit "-a-b-c-".
Proof. reflexivity. Qed.

Lemma replace_space_charwise (s : str) :
  replace (lit " ") (lit "%20") s = percent_encode_spaces s.
Proof.
  unfold replace, percent_encode_spaces.
  change (lit " ") with [SPACE]. set (new := lit "%20").
  induction s as [|c s IH]; [reflexivity|].
  cbn [replace_from starts_with length Nat.sub flat_map].
  rewrite IH, (N.eqb_sym SPACE c), andb_true_r.
  destruct (c =? SPACE)%N; reflexivity.
Qed.

Lemma percent_encode_spaces_app (s t : str) :
  percent_encode_spaces (s ++ t) = percent_encode_spaces s ++ percent_encode_spaces t.
Proof. unfold percent_encode_spaces. apply flat_map_app. Qed.

(** The encoded text contains no space. *)
Lemma percent_encode_spaces_no_space (s : str) :
  ~ In SPACE (percent_encode_spaces s).
Proof.
  induction s as [|c s IH]; simpl; [tauto|].
  intros H. apply in_app_or in H. destruct H as [H|H]; [|tauto].
  destruct (c =? SPACE)%N eqn:E.
  - simpl in H. unfold SPACE in H. intuition discriminate.
  - simpl in H. destruct H as [H|[]]. subst c. rewrite N.eqb_refl in E. discriminate.
Qed.

(** Characters other than the space pass through unchanged, in order. *)
Lemma percent_encode_spaces_id (s : str) :
  ~ In SPACE s -> percent_encode_spaces s = s.
Proof.
  induction s as [|c s IH]; simpl; intros H; [reflexivity|].
  destruct (c =? SPACE)%N eqn:E.
  - apply N.eqb_eq in E. subst c. tauto.
  - simpl. f_equal. apply IH. tauto.
Qed.

(** [lstrip] drops a prefix of whitespace and stops at the first other
    character. *)
Lemma lstrip_spec (s : str) :
  exists ws, s = ws ++ lstrip s /\ forallb is_space ws = true
    /\ match lstrip s with [] => True | c :: _ => is_space c = false end.
Proof.
  induction s as [|c s (ws & Heq & Hws & Hhd)]; simpl.
  - exists []. auto.
  - destruct (is_space c) eqn:E.
    + exists (c :: ws). simpl. rewrite E, Hws. split; [congruence|auto].
    + exists []. simpl. rewrite E. auto.
Qed.

(** [strip] removes whitespace at both ends and nothing in between. *)
Lemma strip_spec (s : str) :
  exists l r, s = l ++ strip s ++ r
    /\ forallb is_space l = true /\ forallb is_space r = true.
Proof.
  destruct (lstrip_spec s) as (l & Hl & Hlw & _).
  destruct (lstrip_spec (rev (lstrip s))) as (r & Hr & Hrw & _).
  exists l, (rev r). unfold strip, rstrip. repeat split; auto.
  - rewrite <- rev_app_distr, <- Hr, rev_involutive. exact Hl.
  - rewrite forallb_forall in *. intros x Hx. apply Hrw. now apply in_rev.
Qed.

(** ** C1: the remote path of a download *)

Section PathProperties.
Context `{RT : Runtime}.
Import Service.

(** C1, as the specification words it, fails: the folder is stripped of
    leading and trailing whitespace before it enters the path, so a folder
    [" docs"] yields [/docs/a.txt] and not [/%20docs/a.txt]. *)
Lemma folder_whitespace_is_stripped_not_encoded :
  encoded_path (Some (lit " docs")) (lit "a.txt") = lit "/docs/a.txt"
  /\ spec_encoded_path (lit " docs") (lit "a.txt") = lit "/%20docs/a.txt"
  /\ encoded_path (Some (lit " docs")) (lit "a.txt")
     <> spec_encoded_path (lit " docs") (lit "a.txt").
Proof. repeat split; try reflexivity. vm_compute. discriminate. Qed.

(** For a folder without whitespace at its ends the path is the one the
    specification describes. *)
Lemma trimmed_folder_path_as_specified (f n : str) :
  strip f = f -> encoded_path (Some f) n = spec_encoded_path f n.
Proof.
  intros Hf. unfold encoded_path, spec_encoded_path, remote_path.
  rewrite replace_space_charwise, Hf. reflexivity.
Qed.

(** C1 (amended): the request of Download File By Path goes to
    [root:{p}:/content] where [p] is the path with every space, and only
    spaces, replaced by [%20]; the path is [/{strip(f)}/{n}] for a
    non-empty folder [f], with [strip] removing leading and trailing
    whitespace, and [/{n}] for an empty or absent folder. *)
Theorem download_path_stripped_then_encoded
    (cfg : config) (folder : option str) (file_name : str) (token : json) :
  first_call (download_file_by_path cfg folder file_name token)
    = Some (content_request cfg folder file_name token)
  /\ req_url (content_request cfg folder file_name token)
     = lit "https://graph.microsoft.com/v1.0/drives/" ++ DRIVE_ID cfg ++ lit "/root:"
         ++ percent_encode_spaces (remote_path folder file_name) ++ lit ":/content"
  /\ (forall f, folder = Some f -> f <> [] ->
        remote_path folder file_name = lit "/" ++ strip f ++ lit "/" ++ file_name)
  /\ (folder = None \/ folder = Some [] ->
        remote_path folder file_name = lit "/" ++ file_name).
Proof.
  split; [reflexivity|]. split.
  - unfold content_request, content_url, encoded_path. cbn [req_url].
    now rewrite replace_space_charwise.
  - split.
    + intros f -> Hf. destruct f; [congruence|reflexivity].
    + intros [-> | ->]; reflexivity.
Qed.

End PathProperties.

Lemma download_path_stripped_then_encoded_witness :
  req_url (Service.content_request (RT := sample_runtime) sample_config
             (Some (lit "My Docs")) (lit "a b.txt") (JStr (lit "tok")))
    = lit "https://graph.microsoft.com/v1.0/drives/drive-1/root:/My%20Docs/a%20b.txt:/content"
  /\ Service.remote_path (Some (lit " My Docs ")) (lit "a b.txt") = lit "/My Docs/a b.txt"
  /\ Service.remote_path (Some []) (lit "report.txt") = lit "/report.txt".
Proof.
  destruct (download_path_stripped_then_encoded (RT := sample_runtime) sample_config
              (Some (lit "My Docs")) (lit "a b.txt") (JStr (lit "tok")))
    as (_ & Hurl & _ & _).
  destruct (download_path_stripped_then_encoded (RT := sample_runtime) sample_config
              (Some (lit " My Docs ")) (lit "a b.txt") (JStr (lit "tok")))
    as (_ & _ & Hfull & _).
  destruct (download_path_stripped_then_encoded (RT := sample_runtime) sample_config
              (Some []) (lit "report.txt") (JStr (lit "tok")))
    as (_ & _ & _ & Hempty).
  split; [rewrite Hurl; reflexivity|]. split.
  - rewrite (Hfull (lit " My Docs ") eq_refl); [reflexivity|discriminate].
  - apply Hempty. right. reflexivity.
Defined.

(** ** Running programs *)

Section RunLemmas.
Context {R : Type}.

Lemma run_bind {A B} (net : network R) (p : prog R A) (f : A -> prog R B) n :
  run net n (bind p f) =
  match run net n p with
  | (evs, inl e) => (evs, inl e)
  | (evs, inr a) =>
      let '(evs', res) := run net (n + length (calls_of evs)) (f a) in
      (evs ++ evs', res)
  end.
Proof.
  revert n. induction p as [a|e|r k IH|s line k IH]; intros n; cbn [bind run].
  - rewrite Nat.add_0_r. cbn. now destruct (run net n (f a)).
  - reflexivity.
  - rewrite IH. destruct (run net (S n) (k (net n r))) as [evs [e|a]]; [reflexivity|].
    cbn [calls_of length]. rewrite Nat.add_succ_r, <- Nat.add_succ_l.
    now destruct (run net (S n + length (calls_of evs)) (f a)).
  - rewrite IH. destruct (run net n k) as [evs [e|a]]; [reflexivity|].
    cbn [calls_of]. now destruct (run net (n + length (calls_of evs)) (f a)).
Qed.

Lemma run_try_except {A} (net : network R) (p : prog R A) cls h n :
  run net n (try_except p cls h) =
  match run net n p with
  | (evs, inl e) =>
      if cls e
      then let '(evs', res) := run net (n + length (calls_of evs)) (h e) in
           (evs ++ evs', res)
      else (evs, inl e)
  | (evs, inr a) => (evs, inr a)
  end.
Proof.
  revert n. induction p as [a|e|r k IH|s line k IH]; intros n; cbn [try_except run].
  - reflexivity.
  - destruct (cls e); [|reflexivity].
    rewrite Nat.add_0_r. cbn. now destruct (run net n (h e)).
  - rewrite IH. destruct (run net (S n) (k (net n r))) as [evs [e|a]]; [|reflexivity].
    destruct (cls e); [|reflexivity].
    cbn [calls_of length]. rewrite Nat.add_succ_r, <- Nat.add_succ_l.
    now destruct (run net (S n + length (calls_of evs)) (h e)).
  - rewrite IH. destruct (run net n k) as [evs [e|a]]; [|reflexivity].
    destruct (cls e); [|reflexivity].
    cbn [calls_of]. now destruct (run net (n + length (calls_of evs)) (h e)).
Qed.

Lemma calls_of_app (l1 l2 : list (event R)) :
  calls_of (l1 ++ l2) = calls_of l1 ++ calls_of l2.
Proof.
  induction l1 as [|[r o|s line] l1 IH]; cbn; [reflexivity| |assumption].
  now rewrite IH.
Qed.

Lemma printed_app s (l1 l2 : list (event R)) :
  printed s (l1 ++ l2) = printed s l1 ++ printed s l2.
Proof.
  induction l1 as [|[r o|s' line] l1 IH]; cbn; [reflexivity|assumption|].
  destruct s, s'; cbn; now rewrite IH.
Qed.

End RunLemmas.

(** ** Interpreter operations *)

Lemma getitem_int_first (x : json) (rest : list json) :
  getitem_int (JArr (x :: rest)) 0 = inr x.
Proof.
  assert (H : (0 <? Z.of_nat (length (x :: rest)))%Z = true)
    by (apply Z.ltb_lt; cbn [length]; lia).
  unfold getitem_int. cbv zeta. change (0 <? 0)%Z with false. cbv iota.
  change (0 <=? 0)%Z with true. rewrite H. reflexivity.
Qed.

(** ** The discovery utility *)

Section DiscoveryProperties.
Context `{RT : Runtime}.
Import Discovery.

(** A stage that fails never yields a value; a stage is exactly one
    outbound call and prints nothing. *)
Ltac stage_cases :=
  repeat match goal with
  | |- context [match ?o with Responded _ => _ | Failed _ => _ end] => destruct o
  | |- context [rq_raise_for_status ?r] =>
      unfold rq_raise_for_status; destruct (rq_is_error r) eqn:?
  | |- context [rq_json_of ?r] =>
      unfold rq_json_of; destruct (rq_json r) eqn:?
  | |- context [py_get ?b _ _] => destruct b; cbn
  | |- context [if negb (truthy ?v) then _ else _] => destruct (truthy v) eqn:?; cbn
  | |- context [lift ?x] => destruct x eqn:?; cbn
  | _ => progress cbn
  end.

Lemma acquire_token_one_call net n t c s :
  fst (run net n (acquire_token t c s))
  = [EvCall (token_request t c s) (net n (token_request t c s))].
Proof.
  unfold acquire_token, requests_send. cbn [bind run].
  destruct (net n (token_request t c s)); stage_cases; reflexivity.
Qed.

Lemma get_site_id_one_call net n d sn h :
  fst (run net n (get_site_id d sn h))
  = [EvCall (get_request (site_url d sn) h) (net n (get_request (site_url d sn) h))].
Proof.
  unfold get_site_id, requests_send. cbn [bind run].
  destruct (net n (get_request (site_url d sn) h)); stage_cases; reflexivity.
Qed.

Lemma get_default_drive_id_one_call net n sid h :
  fst (run net n (get_default_drive_id sid h))
  = [EvCall (get_request (drives_url sid) h) (net n (get_request (drives_url sid) h))].
Proof.
  unfold get_default_drive_id, requests_send. cbn [bind run].
  destruct (net n (get_request (drives_url sid) h)); stage_cases; reflexivity.
Qed.

(** Rewrite with the known outcome [H] of the stage under a [try]. *)
Ltac stage_step H :=
  rewrite run_bind, run_try_except, run_bind, H;
  cbn [run Nat.add app]; rewrite ?app_nil_r, ?Nat.add_0_r.

Ltac stage_done := cbn; rewrite ?app_nil_r, <- ?app_assoc; reflexivity.

(** What [main] does once the outcome of each stage is known. *)
Lemma main_token_stage_error a net evs1 e :
  run net 0 (acquire_token (tenant_id a) (client_id a) (client_secret a)) = (evs1, inl e) ->
  run net 0 (main a) =
  if is_RuntimeError e
  then (evs1 ++ [EvPrint Stderr (lit "Error acquiring token: " ++ exn_str e)], inr 1%Z)
  else (evs1, inl e).
Proof.
  intros H1. unfold main.
  rewrite run_bind, run_try_except, run_bind, H1.
  destruct (is_RuntimeError e); stage_done.
Qed.

Lemma main_site_stage_error a net evs1 evs2 token e :
  run net 0 (acquire_token (tenant_id a) (client_id a) (client_secret a)) = (evs1, inr token) ->
  run net (length (calls_of evs1))
    (get_site_id (domain a) (site_name a) (auth_headers token)) = (evs2, inl e) ->
  run net 0 (main a) =
  (evs1 ++ evs2 ++ [EvPrint Stderr (lit "Error obtaining site ID: " ++ exn_str e)],
   inr 1%Z).
Proof.
  intros H1 H2. unfold main.
  stage_step H1. rewrite run_bind, run_try_except, run_bind, H2.
  stage_done.
Qed.

Lemma main_drive_stage_error a net evs1 evs2 evs3 token site_id e :
  run net 0 (acquire_token (tenant_id a) (client_id a) (client_secret a)) = (evs1, inr token) ->
  run net (length (calls_of evs1))
    (get_site_id (domain a) (site_name a) (auth_headers token)) = (evs2, inr site_id) ->
  run net (length (calls_of evs1) + length (calls_of evs2))
    (get_default_drive_id site_id (auth_headers token)) = (evs3, inl e) ->
  run net 0 (main a) =
  (evs1 ++ evs2 ++ evs3
     ++ [EvPrint Stderr (lit "Error obtaining drive ID: " ++ exn_str e)],
   inr 1%Z).
Proof.
  intros H1 H2 H3. unfold main.
  stage_step H1. stage_step H2. rewrite run_bind, run_try_except, run_bind, H3.
  stage_done.
Qed.

(** C6: when token acquisition, site resolution and drive resolution all
    succeed, [main] has made exactly these three calls in this order, has
    printed exactly the two lines [SITE_ID=<site>] and [DRIVE_ID=<drive>]
    on standard output, nothing on the error stream, and returns 0. *)
Theorem main_success_prints_both_identifiers
    a net evs1 evs2 evs3 token site_id drive_id :
  run net 0 (acquire_token (tenant_id a) (client_id a) (client_secret a)) = (evs1, inr token) ->
  run net (length (calls_of evs1))
    (get_site_id (domain a) (site_name a) (auth_headers token)) = (evs2, inr site_id) ->
  run net (length (calls_of evs1) + length (calls_of evs2))
    (get_default_drive_id site_id (auth_headers token)) = (evs3, inr drive_id) ->
  exists evs,
    run net 0 (main a) = (evs, inr 0%Z)
    /\ evs = evs1 ++ evs2 ++ evs3
              ++ [ EvPrint Stdout (lit "SITE_ID=" ++ py_str site_id);
                   EvPrint Stdout (lit "DRIVE_ID=" ++ py_str drive_id) ]
    /\ calls_of evs =
         [ token_request (tenant_id a) (client_id a) (client_secret a);
           get_request (site_url (domain a) (site_name a)) (auth_headers token);
           get_request (drives_url site_id) (auth_headers token) ]
    /\ printed Stdout evs = [ lit "SITE_ID=" ++ py_str site_id;
                              lit "DRIVE_ID=" ++ py_str drive_id ]
    /\ printed Stderr evs = [].
Proof.
  intros H1 H2 H3.
  assert (Hrun : run net 0 (main a)
                 = (evs1 ++ evs2 ++ evs3
                      ++ [ EvPrint Stdout (lit "SITE_ID=" ++ py_str site_id);
                           EvPrint Stdout (lit "DRIVE_ID=" ++ py_str drive_id) ],
                    inr 0%Z)).
  { unfold main. stage_step H1. stage_step H2. stage_step H3. stage_done. }
  eexists. split; [exact Hrun|]. split; [reflexivity|].
  pose proof (acquire_token_one_call net 0 (tenant_id a) (client_id a) (client_secret a)) as E1.
  rewrite H1 in E1. cbn [fst] in E1. subst evs1.
  cbn [calls_of length Nat.add] in H2, H3.
  pose proof (get_site_id_one_call net 1 (domain a) (site_name a) (auth_headers token)) as E2.
  rewrite H2 in E2. cbn [fst] in E2. subst evs2.
  cbn [calls_of length Nat.add] in H3.
  pose proof (get_default_drive_id_one_call net 2 site_id (auth_headers token)) as E3.
  rewrite H3 in E3. cbn [fst] in E3. subst evs3.
  repeat split; reflexivity.
Qed.

(** C7, at the failing input: when the token endpoint cannot be reached,
    [requests.post] raises an exception that is not a [RuntimeError]; the
    handler of the token stage does not apply, [main] prints no
    [Error acquiring token:] line and returns no status: the exception
    leaves [main]. *)
Theorem main_token_connection_failure_escapes a msg :
  run (fun _ _ => Failed msg) 0 (main a)
  = ([EvCall (token_request (tenant_id a) (client_id a) (client_secret a)) (Failed msg)],
     inl (RequestsConnectionError msg)).
Proof. reflexivity. Qed.

(** The same happens when the token endpoint answers 200 with a body that
    is not JSON. *)
Lemma main_token_invalid_json_escapes a resp msg :
  rq_is_error resp = false -> rq_json resp = Fails msg ->
  run (fun _ _ => Responded resp) 0 (main a)
  = ([EvCall (token_request (tenant_id a) (client_id a) (client_secret a)) (Responded resp)],
     inl (JSONDecodeError msg)).
Proof.
  intros Hok Hjson. unfold main, acquire_token, requests_send, rq_raise_for_status, rq_json_of.
  cbn. rewrite Hok. cbn. rewrite Hjson. reflexivity.
Qed.

(** For an HTTP error status the response is falsy, so the message of the
    token stage carries the text of the exception, not the response body. *)
Lemma acquire_token_status_error net n t c s resp :
  net n (token_request t c s) = Responded resp ->
  rq_is_error resp = true ->
  snd (run net n (acquire_token t c s))
  = inl (RuntimeError (lit "Failed to obtain token: " ++ rq_status_text resp)).
Proof.
  intros Hnet Herr. unfold acquire_token, requests_send, rq_raise_for_status.
  cbn. rewrite Hnet. cbn. rewrite Herr. cbn. unfold rq_bool. rewrite Herr. reflexivity.
Qed.

(** C8: for a drive listing that was fetched successfully,
    [get_default_drive_id] returns the [id] of the first entry of [value],
    whatever follows it, and raises the no-drives error when [value] is
    empty. *)
Theorem first_drive_is_selected site_id headers net n resp items :
  net n (get_request (drives_url site_id) headers) = Responded resp ->
  rq_is_error resp = false ->
  rq_json resp = Got (JObj items) ->
  (forall fields rest ident,
      assoc (lit "value") items = Some (JArr (JObj fields :: rest)) ->
      assoc (lit "id") fields = Some ident ->
      run net n (get_default_drive_id site_id headers)
      = ([EvCall (get_request (drives_url site_id) headers) (Responded resp)],
         inr ident))
  /\ (assoc (lit "value") items = Some (JArr []) ->
      run net n (get_default_drive_id site_id headers)
      = ([EvCall (get_request (drives_url site_id) headers) (Responded resp)],
         inl (RuntimeError (lit "The specified site has no drives")))).
Proof.
  intros Hnet Hok Hjson.
  unfold get_default_drive_id, requests_send, rq_raise_for_status, rq_json_of.
  cbn [bind run]. rewrite Hnet. cbn [bind run]. rewrite Hok. cbn [bind run].
  rewrite Hjson. cbn [bind run py_get lift].
  split.
  - intros fields rest ident Hvalue Hid. rewrite Hvalue.
    cbn [truthy negb bind]. rewrite getitem_int_first.
    cbn [lift bind getitem_str]. rewrite Hid. reflexivity.
  - intros Hvalue. rewrite Hvalue. reflexivity.
Qed.

(** A listing without a [value] member counts as empty. *)
Lemma no_value_member_is_no_drives site_id headers net n resp items :
  net n (get_request (drives_url site_id) headers) = Responded resp ->
  rq_is_error resp = false ->
  rq_json resp = Got (JObj items) ->
  assoc (lit "value") items = None ->
  snd (run net n (get_default_drive_id site_id headers))
  = inl (RuntimeError (lit "The specified site has no drives")).
Proof.
  intros Hnet Hok Hjson Hvalue.
  unfold get_default_drive_id, requests_send, rq_raise_for_status, rq_json_of.
  cbn [bind run]. rewrite Hnet. cbn [bind run]. rewrite Hok. cbn [bind run].
  rewrite Hjson. cbn [bind run py_get lift]. rewrite Hvalue. reflexivity.
Qed.

End DiscoveryProperties.

Lemma main_success_prints_both_identifiers_witness :
  exists evs,
    run sample_network_three 0 (Discovery.main (RT := sample_runtime) sample_args)
      = (evs, inr 0%Z)
    /\ printed Stdout evs = [ lit "SITE_ID=contoso.sharepoint.com,111,222";
                              lit "DRIVE_ID=b!first" ]
    /\ printed Stderr evs = [].
Proof.
  edestruct (main_success_prints_both_identifiers (RT := sample_runtime)
               sample_args sample_network_three)
    as (evs & Hrun & _ & _ & Hout & Herr);
    [reflexivity | reflexivity | reflexivity |].
  exists evs. split; [exact Hrun|]. split; [exact Hout | exact Herr].
Defined.

Lemma first_drive_is_selected_witness :
  run sample_network_three 2
    (Discovery.get_default_drive_id (RT := sample_runtime)
       (JStr (lit "site-1")) [])
  = ([EvCall (Discovery.get_request
                (Discovery.drives_url (RT := sample_runtime) (JStr (lit "site-1"))) [])
        (Responded (sample_drives_reply sample_drives))],
     inr (JStr (lit "b!first")))
  /\ run (sample_network []) 2
       (Discovery.get_default_drive_id (RT := sample_runtime)
          (JStr (lit "site-1")) [])
     = ([EvCall (Discovery.get_request
                   (Discovery.drives_url (RT := sample_runtime) (JStr (lit "site-1"))) [])
           (Responded (sample_drives_reply []))],
        inl (RuntimeError (lit "The specified site has no drives"))).
Proof.
  split.
  - eapply (first_drive_is_selected (RT := sample_runtime)
              (JStr (lit "site-1")) [] sample_network_three 2
              (sample_drives_reply sample_drives));
      reflexivity.
  - eapply (first_drive_is_selected (RT := sample_runtime)
              (JStr (lit "site-1")) [] (sample_network []) 2
              (sample_drives_reply []));
      reflexivity.
Defined.

(** ** The service: error classification *)

Section ServiceProperties.
Context `{RT : Runtime}.
Import Service.
Variable cfg : config.

(** After a successful token exchange the handler goes on with the
    download, using the token of that exchange. *)
Lemma get_file_after_token request net n resp items token :
  net n (token_request cfg) = Responded resp ->
  hx_is_success resp = true ->
  hx_json resp = Got (JObj items) ->
  assoc (lit "access_token") items = Some token ->
  truthy token = true ->
  run net n (respond (get_file cfg request)) =
  let '(evs, res) :=
    run net (S n)
      (respond (download_file_by_path cfg (folder request) (fileName request) token)) in
  (EvCall (token_request cfg) (Responded resp) :: evs, res).
Proof.
  intros Hnet Hok Hjson Htok Htruthy.
  unfold respond, get_file, acquire_access_token, httpx_send, hx_raise_for_status,
    hx_json_of.
  cbn [bind try_except run]. rewrite Hnet. cbn [bind try_except run].
  rewrite Hok. cbn [bind try_except run]. rewrite Hjson.
  cbn [bind try_except run py_get lift]. rewrite Htok.
  cbn [bind try_except run py_get lift]. rewrite Htruthy.
  cbn [negb bind]. reflexivity.
Qed.

(** A 404 from Graph is answered 404 with a message naming the file and
    the folder; any other error status is answered 500 with the text of
    the upstream error. *)
Lemma download_error_status_is_classified folder file_name token net n resp :
  net n (content_request cfg folder file_name token) = Responded resp ->
  (hx_status_code resp = 404%Z ->
     run net n (respond (download_file_by_path cfg folder file_name token))
     = ([EvCall (content_request cfg folder file_name token) (Responded resp)],
        inr {| status := 404;
               body := Detail (lit "Archivo '" ++ file_name
                                 ++ lit "' no encontrado en '"
                                 ++ format_folder folder ++ lit "'") |}))
  /\ (hx_is_success resp = false -> hx_status_code resp <> 404%Z ->
     run net n (respond (download_file_by_path cfg folder file_name token))
     = ([EvCall (content_request cfg folder file_name token) (Responded resp)],
        inr {| status := 500;
               body := Detail (lit "Error al acceder a Graph: "
                                 ++ hx_status_text resp) |})).
Proof.
  intros Hnet.
  unfold respond, download_file_by_path, httpx_send, hx_raise_for_status, hx_text_of.
  cbn [bind try_except run]. rewrite Hnet. cbn [bind try_except run].
  split.
  - intros H404. unfold hx_is_success. rewrite H404.
    cbn. rewrite H404. reflexivity.
  - intros Herr Hne. rewrite Herr. cbn.
    apply Z.eqb_neq in Hne. rewrite Hne. reflexivity.
Qed.

(** When the codec refuses to decode, the [UnicodeError] of [resp.text] is
    not the [UnicodeDecodeError] the download catches: it leaves the
    handler and the answer is the generic 500. *)
Lemma download_codec_failure_is_unhandled folder file_name token net n resp msg :
  net n (content_request cfg folder file_name token) = Responded resp ->
  hx_is_success resp = true -> hx_text resp = Fails msg ->
  run net n (download_file_by_path cfg folder file_name token)
    = ([EvCall (content_request cfg folder file_name token) (Responded resp)],
       inl (UnicodeError msg))
  /\ run net n (respond (download_file_by_path cfg folder file_name token))
     = ([EvCall (content_request cfg folder file_name token) (Responded resp)],
        inr {| status := 500; body := PlainText (lit "Internal Server Error") |}).
Proof.
  intros Hnet Hok Htext.
  unfold respond, download_file_by_path, httpx_send, hx_raise_for_status, hx_text_of.
  cbn [bind try_except run]. rewrite Hnet. cbn [bind try_except run].
  rewrite Hok. cbn [bind try_except run]. rewrite Htext. split; reflexivity.
Qed.


(** A fetch that succeeds with decodable text is answered 200 with that
    text. *)
Lemma download_success folder file_name token net n resp text :
  net n (content_request cfg folder file_name token) = Responded resp ->
  hx_is_success resp = true -> hx_text resp = Got text ->
  run net n (respond (download_file_by_path cfg folder file_name token))
  = ([EvCall (content_request cfg folder file_name token) (Responded resp)],
     inr {| status := 200; body := PlainText text |}).
Proof.
  intros Hnet Hok Htext.
  unfold respond, download_file_by_path, httpx_send, hx_raise_for_status, hx_text_of.
  cbn [bind try_except run]. rewrite Hnet. cbn [bind try_except run].
  rewrite Hok. cbn. rewrite Htext. reflexivity.
Qed.

(** When Graph cannot be reached at all, the exception is not one the
    download handles: it leaves the handler as it is. *)
Lemma download_transport_failure_propagates folder file_name token net n msg :
  net n (content_request cfg folder file_name token) = Failed msg ->
  run net n (download_file_by_path cfg folder file_name token)
  = ([EvCall (content_request cfg folder file_name token) (Failed msg)],
     inl (TransportError msg)).
Proof.
  intros Hnet.
  unfold download_file_by_path, httpx_send. cbn [bind try_except run].
  rewrite Hnet. reflexivity.
Qed.

(** C3: a token exchange that fails at the HTTP level, with an error
    status or with no response at all, is answered 502 with the upstream
    text and no further call is made; an exchange that succeeds without an
    [access_token] member is answered 500 saying so. *)
Theorem token_failure_is_answered_without_fetch payload request net :
  parse_FileRequest payload = inr request ->
  (forall msg, net 0 (token_request cfg) = Failed msg ->
     run net 0 (post_get_file cfg payload)
     = ([EvCall (token_request cfg) (Failed msg)],
        inr {| status := 502;
               body := Detail (lit "Failed to obtain access token: " ++ msg) |}))
  /\ (forall resp, net 0 (token_request cfg) = Responded resp ->
       hx_is_success resp = false ->
     run net 0 (post_get_file cfg payload)
     = ([EvCall (token_request cfg) (Responded resp)],
        inr {| status := 502;
               body := Detail (lit "Failed to obtain access token: "
                                 ++ hx_status_text resp) |}))
  /\ (forall resp items, net 0 (token_request cfg) = Responded resp ->
       hx_is_success resp = true ->
       hx_json resp = Got (JObj items) ->
       assoc (lit "access_token") items = None ->
     run net 0 (post_get_file cfg payload)
     = ([EvCall (token_request cfg) (Responded resp)],
        inr {| status := 500;
               body := Detail (lit "Authentication service returned no access token") |})).
Proof.
  intros Hparse. unfold post_get_file. rewrite Hparse.
  unfold respond, get_file, acquire_access_token, httpx_send, hx_raise_for_status,
    hx_json_of.
  cbn [bind try_except run].
  repeat split.
  - intros msg Hnet. rewrite Hnet. reflexivity.
  - intros resp Hnet Herr. rewrite Hnet. cbn [bind try_except run].
    rewrite Herr. reflexivity.
  - intros resp items Hnet Hok Hjson Hnone. rewrite Hnet. cbn [bind try_except run].
    rewrite Hok. cbn [bind try_except run]. rewrite Hjson.
    cbn [bind try_except run py_get lift]. rewrite Hnone. reflexivity.
Qed.

(** A present but falsy [access_token] (null, empty string, ...) is
    treated like a missing one. *)
Lemma falsy_token_is_no_token payload request net resp items token :
  parse_FileRequest payload = inr request ->
  net 0 (token_request cfg) = Responded resp ->
  hx_is_success resp = true ->
  hx_json resp = Got (JObj items) ->
  assoc (lit "access_token") items = Some token ->
  truthy token = false ->
  run net 0 (post_get_file cfg payload)
  = ([EvCall (token_request cfg) (Responded resp)],
     inr {| status := 500;
            body := Detail (lit "Authentication service returned no access token") |}).
Proof.
  intros Hparse Hnet Hok Hjson Htok Hfalsy. unfold post_get_file. rewrite Hparse.
  unfold respond, get_file, acquire_access_token, httpx_send, hx_raise_for_status,
    hx_json_of.
  cbn [bind try_except run]. rewrite Hnet. cbn [bind try_except run].
  rewrite Hok. cbn [bind try_except run]. rewrite Hjson.
  cbn [bind try_except run py_get lift]. rewrite Htok.
  cbn [bind try_except run]. rewrite Hfalsy. reflexivity.
Qed.

End ServiceProperties.

(** A body that is not valid text is answered 200 with the replacement
    characters, not 400. *)
Example undecodable_body_is_answered_200 :
  run (fun _ _ => Responded hx_binary) 1
    (Service.respond
       (Service.download_file_by_path (RT := sample_runtime) sample_config
          (Some (lit "Reports")) (lit "logo.png") (JStr (lit "tok-1"))))
  = ([EvCall (Service.content_request (RT := sample_runtime) sample_config
                (Some (lit "Reports")) (lit "logo.png") (JStr (lit "tok-1")))
        (Responded hx_binary)],
     inr {| Service.status := 200;
            Service.body := Service.PlainText [65533; 65533]%N |}).
Proof. reflexivity. Qed.

Example download_error_status_samples :
  snd (run (fun _ _ => Responded hx_not_found) 1
         (Service.respond
            (Service.download_file_by_path (RT := sample_runtime) sample_config
               (Some (lit "Reports")) (lit "report.txt") (JStr (lit "tok-1")))))
    = inr {| Service.status := 404;
             Service.body :=
               Service.Detail (lit "Archivo 'report.txt' no encontrado en 'Reports'") |}
  /\ snd (run (fun _ _ => Responded hx_unavailable) 1
            (Service.respond
               (Service.download_file_by_path (RT := sample_runtime) sample_config
                  (Some (lit "Reports")) (lit "report.txt") (JStr (lit "tok-1")))))
     = inr {| Service.status := 500;
              Service.body :=
                Service.Detail (lit "Error al acceder a Graph: HTTP status 503") |}
  /\ snd (run (fun _ _ => Responded hx_codec_refuses) 1
            (Service.respond
               (Service.download_file_by_path (RT := sample_runtime) sample_config
                  (Some (lit "Reports")) (lit "report.txt") (JStr (lit "tok-1")))))
     = inr {| Service.status := 500;
              Service.body := Service.PlainText (lit "Internal Server Error") |}.
Proof. repeat split. Qed.

Lemma token_failure_is_answered_without_fetch_witness :
  let serve net :=
    run net 0 (Service.post_get_file (RT := sample_runtime) sample_config sample_payload) in
  let asked o := EvCall (Service.token_request sample_config) o in
  serve (fun _ _ => Failed (lit "connection refused"))
    = ([asked (Failed (lit "connection refused"))],
       inr {| Service.status := 502;
              Service.body :=
                Service.Detail (lit "Failed to obtain access token: connection refused") |})
  /\ serve (fun _ _ => Responded hx_token_denied)
    = ([asked (Responded hx_token_denied)],
       inr {| Service.status := 502;
              Service.body :=
                Service.Detail (lit "Failed to obtain access token: HTTP status 401") |})
  /\ serve (fun _ _ => Responded hx_token_missing)
    = ([asked (Responded hx_token_missing)],
       inr {| Service.status := 500;
              Service.body :=
                Service.Detail (lit "Authentication service returned no access token") |}).
Proof.
  intros serve asked. unfold serve, asked.
  split; [|split].
  - apply (token_failure_is_answered_without_fetch (RT := sample_runtime)
             sample_config sample_payload sample_request
             (fun _ _ => Failed (lit "connection refused")) eq_refl).
    reflexivity.
  - apply (token_failure_is_answered_without_fetch (RT := sample_runtime)
             sample_config sample_payload sample_request
             (fun _ _ => Responded hx_token_denied) eq_refl);
      reflexivity.
  - eapply (token_failure_is_answered_without_fetch (RT := sample_runtime)
              sample_config sample_payload sample_request
              (fun _ _ => Responded hx_token_missing) eq_refl);
      reflexivity.
Defined.

(** ** The service: validation of the request body *)

Section ValidationProperties.
Context `{RT : Runtime}.
Import Service.

(** C4 (amended): [fileName] is a required string, and any string,
    the empty one included, is accepted; a body without it is rejected.
    [folder] may be omitted, in which case it is the empty string, or be a
    string, or be null. *)
Theorem file_request_validation (items : list (str * json)) :
  (assoc (lit "fileName") items = None ->
     exists errs, parse_FileRequest (JObj items) = inl errs
                  /\ In (FieldRequired (lit "fileName")) errs)
  /\ (forall name, assoc (lit "fileName") items = Some (JStr name) ->
       assoc (lit "folder") items = None ->
       parse_FileRequest (JObj items) = inr {| fileName := name; folder := Some [] |})
  /\ (forall name f, assoc (lit "fileName") items = Some (JStr name) ->
       assoc (lit "folder") items = Some (JStr f) ->
       parse_FileRequest (JObj items) = inr {| fileName := name; folder := Some f |})
  /\ (forall name, assoc (lit "fileName") items = Some (JStr name) ->
       assoc (lit "folder") items = Some JNull ->
       parse_FileRequest (JObj items) = inr {| fileName := name; folder := None |}).
Proof.
  unfold parse_FileRequest, field_fileName, field_folder. repeat split.
  - intros ->. destruct (match assoc (lit "folder") items with
                         | Some v => validate_optional_str (lit "folder") v
                         | None => inr (Some [])
                         end) as [e|f]; eexists; (split; [reflexivity|now left]).
  - intros name -> ->. reflexivity.
  - intros name f -> ->. reflexivity.
  - intros name -> ->. reflexivity.
Qed.

End ValidationProperties.

(** C4, as the specification words it, fails: the schema puts no length
    constraint on [fileName], so a body whose [fileName] is the empty
    string validates and reaches the handler. *)
Lemma empty_file_name_is_accepted :
  Service.parse_FileRequest (RT := sample_runtime) (JObj [ (lit "fileName", JStr []) ])
    = inr {| Service.fileName := []; Service.folder := Some [] |}
  /\ ~ (exists errs,
         Service.parse_FileRequest (RT := sample_runtime)
           (JObj [ (lit "fileName", JStr []) ]) = inl errs).
Proof.
  split; [reflexivity|]. intros [errs H]. vm_compute in H. discriminate.
Qed.

Lemma file_request_validation_witness :
  (exists errs,
      Service.parse_FileRequest (RT := sample_runtime)
        (JObj [ (lit "folder", JStr (lit "Reports")) ]) = inl errs
      /\ In (Service.FieldRequired (lit "fileName")) errs)
  /\ Service.parse_FileRequest (RT := sample_runtime)
       (JObj [ (lit "fileName", JStr (lit "report.txt")) ])
     = inr {| Service.fileName := lit "report.txt"; Service.folder := Some [] |}
  /\ Service.parse_FileRequest (RT := sample_runtime) sample_payload = inr sample_request
  /\ Service.parse_FileRequest (RT := sample_runtime)
       (JObj [ (lit "fileName", JStr (lit "report.txt")); (lit "folder", JNull) ])
     = inr {| Service.fileName := lit "report.txt"; Service.folder := None |}.
Proof.
  destruct (file_request_validation (RT := sample_runtime)
              [ (lit "folder", JStr (lit "Reports")) ]) as (Hmissing & _).
  destruct (file_request_validation (RT := sample_runtime)
              [ (lit "fileName", JStr (lit "report.txt")) ]) as (_ & Hdefault & _).
  destruct (file_request_validation (RT := sample_runtime)
              [ (lit "fileName", JStr (lit "report.txt"));
                (lit "folder", JStr (lit "Reports")) ]) as (_ & _ & Hboth & _).
  destruct (file_request_validation (RT := sample_runtime)
              [ (lit "fileName", JStr (lit "report.txt")); (lit "folder", JNull) ])
    as (_ & _ & _ & Hnull).
  split; [|split; [|split]].
  - apply Hmissing. reflexivity.
  - apply Hdefault; reflexivity.
  - apply (Hboth (lit "report.txt") (lit "Reports")); reflexivity.
  - apply Hnull; reflexivity.
Defined.

(** ** The service: start-up *)

Section StartupProperties.
Import Service.

Lemma get_env_variable_unset environ name :
  is_set environ name = false ->
  get_env_variable environ name = inl (missing_error name).
Proof.
  unfold is_set, get_env_variable, missing_error.
  destruct (environ !! name) as [[|c v]|]; [reflexivity|discriminate|reflexivity].
Qed.

Lemma get_env_variable_set environ name :
  is_set environ name = true ->
  exists value, get_env_variable environ name = inr value
                /\ environ !! name = Some value /\ value <> [].
Proof.
  unfold is_set, get_env_variable.
  destruct (environ !! name) as [[|c v]|]; try discriminate.
  intros _. exists (c :: v). repeat split. discriminate.
Qed.

(** Start-up fails at the first variable, in reading order, that is not
    set, and succeeds when there is none. *)
Lemma startup_first_unset environ :
  match find (fun name => negb (is_set environ name)) required_variables with
  | Some name => startup environ = inl (missing_error name)
  | None => exists cfg, startup environ = inr cfg
  end.
Proof.
  unfold startup. cbv [find required_variables].
  destruct (is_set environ (lit "TENANT_ID")) eqn:E1; cbv [negb];
    [apply get_env_variable_set in E1 as (v1 & -> & _)
    | now rewrite (get_env_variable_unset _ _ E1)].
  destruct (is_set environ (lit "CLIENT_ID")) eqn:E2; cbv [negb];
    [apply get_env_variable_set in E2 as (v2 & -> & _)
    | now rewrite (get_env_variable_unset _ _ E2)].
  destruct (is_set environ (lit "CLIENT_SECRET")) eqn:E3; cbv [negb];
    [apply get_env_variable_set in E3 as (v3 & -> & _)
    | now rewrite (get_env_variable_unset _ _ E3)].
  destruct (is_set environ (lit "SITE_ID")) eqn:E4; cbv [negb];
    [apply get_env_variable_set in E4 as (v4 & -> & _)
    | now rewrite (get_env_variable_unset _ _ E4)].
  destruct (is_set environ (lit "DRIVE_ID")) eqn:E5; cbv [negb];
    [apply get_env_variable_set in E5 as (v5 & -> & _)
    | now rewrite (get_env_variable_unset _ _ E5)].
  eexists. reflexivity.
Qed.

Lemma find_first {A} (f : A -> bool) before x after :
  (forall y, In y before -> f y = false) -> f x = true ->
  find f (before ++ x :: after) = Some x.
Proof.
  intros Hb Hx. induction before as [|b before IH]; cbn.
  - now rewrite Hx.
  - rewrite (Hb b) by now left. apply IH. intros y Hy. apply Hb. now right.
Qed.

Lemma startup_fails_when_unset environ name :
  In name required_variables -> is_set environ name = false ->
  exists first,
    In first required_variables /\ is_set environ first = false
    /\ startup environ = inl (missing_error first).
Proof.
  intros Hin Hunset. pose proof (startup_first_unset environ) as Hs.
  destruct (find _ required_variables) as [first|] eqn:Hfind.
  - apply find_some in Hfind as [Hf1 Hf2]. exists first.
    repeat split; [exact Hf1 | now apply negb_true_iff | exact Hs].
  - eapply find_none in Hfind; [|exact Hin]. cbn in Hfind.
    rewrite Hunset in Hfind. discriminate.
Qed.

Lemma startup_names_unset environ name before after :
  required_variables = before ++ name :: after ->
  (forall v, In v before -> is_set environ v = true) ->
  is_set environ name = false ->
  startup environ = inl (missing_error name).
Proof.
  intros Heq Hbefore Hunset. pose proof (startup_first_unset environ) as Hs.
  rewrite Heq, (find_first _ before name after) in Hs; [exact Hs| |].
  - intros y Hy. now rewrite (Hbefore y Hy).
  - now rewrite Hunset.
Qed.

Lemma missing_error_inj name other :
  missing_error other = missing_error name -> other = name.
Proof.
  unfold missing_error. intros H. injection H as H. exact H.
Qed.

(** Each required variable splits the reading order into the variables
    read before it and those read after it. *)
Lemma required_variables_split name :
  In name required_variables ->
  exists before after,
    required_variables = before ++ name :: after
    /\ (forall v, In v before -> In v required_variables /\ v <> name).
Proof.
  unfold required_variables.
  intros [<-|[<-|[<-|[<-|[<-|[]]]]]].
  - exists [], [ lit "CLIENT_ID"; lit "CLIENT_SECRET"; lit "SITE_ID"; lit "DRIVE_ID" ].
    split; [reflexivity | intros v []].
  - exists [ lit "TENANT_ID" ], [ lit "CLIENT_SECRET"; lit "SITE_ID"; lit "DRIVE_ID" ].
    split; [reflexivity|].
    intros v [<-|[]]; (split; [cbn; tauto | intros H; vm_compute in H; discriminate]).
  - exists [ lit "TENANT_ID"; lit "CLIENT_ID" ], [ lit "SITE_ID"; lit "DRIVE_ID" ].
    split; [reflexivity|].
    intros v [<-|[<-|[]]];
      (split; [cbn; tauto | intros H; vm_compute in H; discriminate]).
  - exists [ lit "TENANT_ID"; lit "CLIENT_ID"; lit "CLIENT_SECRET" ], [ lit "DRIVE_ID" ].
    split; [reflexivity|].
    intros v [<-|[<-|[<-|[]]]];
      (split; [cbn; tauto | intros H; vm_compute in H; discriminate]).
  - exists [ lit "TENANT_ID"; lit "CLIENT_ID"; lit "CLIENT_SECRET"; lit "SITE_ID" ], [].
    split; [reflexivity|].
    intros v [<-|[<-|[<-|[<-|[]]]]];
      (split; [cbn; tauto | intros H; vm_compute in H; discriminate]).
Qed.

(** C9: for each of the five required variables, when that variable is
    absent from an environment in which the other four are set, start-up
    fails with the configuration error naming that variable, and no other
    variable. *)
Theorem startup_names_the_missing_variable environ name :
  In name required_variables ->
  environ !! name = None ->
  (forall other, In other required_variables -> other <> name ->
     is_set environ other = true) ->
  startup environ = inl (missing_error name)
  /\ (forall other, startup environ = inl (missing_error other) -> other = name).
Proof.
  intros Hin Habsent Hothers.
  assert (Hunset : is_set environ name = false) by (unfold is_set; now rewrite Habsent).
  assert (Hfail : startup environ = inl (missing_error name)).
  { destruct (required_variables_split name Hin) as (before & after & Heq & Hbefore).
    apply (startup_names_unset environ name before after Heq); [|exact Hunset].
    intros v Hv. destruct (Hbefore v Hv) as [Hreq Hne]. now apply Hothers. }
  split; [exact Hfail|].
  intros other H. rewrite Hfail in H.
  apply missing_error_inj. congruence.
Qed.

Lemma get_env_variable_empty_as_absent (environ : gmap str str) name other :
  get_env_variable (<[name := []]> environ) other
  = get_env_variable (delete name environ) other.
Proof.
  unfold get_env_variable. destruct (decide (name = other)) as [->|Hne].
  - now rewrite lookup_insert_eq, lookup_delete_eq.
  - now rewrite lookup_insert_ne, lookup_delete_ne.
Qed.

(** C10: a required variable that is present with the empty string as
    its value is treated as an absent one: looking it up raises the
    configuration error naming it, and start-up fails exactly as it does
    without the variable; the error names that variable when the
    variables read before it are set, as they are when the other four
    variables are set. *)
Theorem empty_value_is_treated_as_absent (environ : gmap str str) name :
  In name required_variables ->
  get_env_variable (<[name := []]> environ) name = inl (missing_error name)
  /\ get_env_variable (delete name environ) name = inl (missing_error name)
  /\ startup (<[name := []]> environ) = startup (delete name environ)
  /\ (exists first,
        In first required_variables
        /\ is_set (<[name := []]> environ) first = false
        /\ startup (<[name := []]> environ) = inl (missing_error first))
  /\ (forall before after,
        required_variables = before ++ name :: after ->
        (forall v, In v before -> is_set (<[name := []]> environ) v = true) ->
        startup (<[name := []]> environ) = inl (missing_error name)).
Proof.
  intros Hin.
  assert (Hunset : is_set (<[name := []]> environ) name = false)
    by (unfold is_set; now rewrite lookup_insert_eq).
  repeat split.
  - now apply get_env_variable_unset.
  - rewrite <- get_env_variable_empty_as_absent. now apply get_env_variable_unset.
  - unfold startup. now rewrite !get_env_variable_empty_as_absent.
  - now apply startup_fails_when_unset with name.
  - intros before after Heq Hbefore. now apply startup_names_unset with before after.
Qed.

End StartupProperties.

(** With two variables absent, the error names the one read first. *)
Example startup_error_names_first_unset_only :
  delete (lit "TENANT_ID") (delete (lit "DRIVE_ID") sample_environ) !! lit "DRIVE_ID" = None
  /\ Service.startup (delete (lit "TENANT_ID") (delete (lit "DRIVE_ID") sample_environ))
     = inl (missing_error (lit "TENANT_ID")).
Proof. split; reflexivity. Qed.

Lemma startup_names_the_missing_variable_witness :
  Service.startup (delete (lit "SITE_ID") sample_environ)
    = inl (missing_error (lit "SITE_ID"))
  /\ Service.startup (delete (lit "TENANT_ID") sample_environ)
     = inl (missing_error (lit "TENANT_ID"))
  /\ Service.startup (delete (lit "DRIVE_ID") sample_environ)
     = inl (missing_error (lit "DRIVE_ID")).
Proof.
  split; [|split].
  - apply (startup_names_the_missing_variable
             (delete (lit "SITE_ID") sample_environ) (lit "SITE_ID")).
    + unfold Service.required_variables. simpl. tauto.
    + reflexivity.
    + intros other [<-|[<-|[<-|[<-|[<-|[]]]]]] Hne;
        first [reflexivity | now contradiction Hne].
  - apply (startup_names_the_missing_variable
             (delete (lit "TENANT_ID") sample_environ) (lit "TENANT_ID")).
    + unfold Service.required_variables. simpl. tauto.
    + reflexivity.
    + intros other [<-|[<-|[<-|[<-|[<-|[]]]]]] Hne;
        first [reflexivity | now contradiction Hne].
  - apply (startup_names_the_missing_variable
             (delete (lit "DRIVE_ID") sample_environ) (lit "DRIVE_ID")).
    + unfold Service.required_variables. simpl. tauto.
    + reflexivity.
    + intros other [<-|[<-|[<-|[<-|[<-|[]]]]]] Hne;
        first [reflexivity | now contradiction Hne].
Defined.

Lemma empty_value_is_treated_as_absent_witness :
  Service.get_env_variable (<[lit "DRIVE_ID" := []]> sample_environ) (lit "DRIVE_ID")
    = inl (missing_error (lit "DRIVE_ID"))
  /\ Service.startup (<[lit "DRIVE_ID" := []]> sample_environ)
     = Service.startup (delete (lit "DRIVE_ID") sample_environ)
  /\ Service.startup (<[lit "DRIVE_ID" := []]> sample_environ)
     = inl (missing_error (lit "DRIVE_ID")).
Proof.
  destruct (empty_value_is_treated_as_absent sample_environ (lit "DRIVE_ID"))
    as (Hlookup & _ & Hsame & _ & Hexact).
  - unfold Service.required_variables. simpl. tauto.
  - split; [exact Hlookup|]. split; [exact Hsame|].
    apply (Hexact [lit "TENANT_ID"; lit "CLIENT_ID"; lit "CLIENT_SECRET"; lit "SITE_ID"] []).
    + reflexivity.
    + intros v [<-|[<-|[<-|[<-|[]]]]]; reflexivity.
Defined.

(** With every variable set, the service starts with those values. *)
Example startup_sample : Service.startup sample_environ = inr sample_config.
Proof. reflexivity. Qed.

(** ** The service: concurrent requests *)

Section ServerProperties.
Context `{RT : Runtime}.
Import Service Server.
Variable cfg : config.

Lemma own_app i (l1 l2 : list entry) : own i (l1 ++ l2) = own i l1 ++ own i l2.
Proof.
  induction l1 as [|[[j r] o] l1 IH]; cbn; [reflexivity|].
  destruct (decide (j = i)); cbn; now rewrite IH.
Qed.

Lemma own_none i (l : list entry) :
  (forall j r o, In (j, r, o) l -> j <> i) -> own i l = [].
Proof.
  induction l as [|[[j r] o] l IH]; cbn; intros H; [reflexivity|].
  destruct (decide (j = i)) as [->|_].
  - exfalso. apply (H i r o); [now left | reflexivity].
  - apply IH. intros j' r' o' Hin. apply (H j' r' o'). now right.
Qed.

Lemma follows_snoc {R A} (p : prog R A) l r k o :
  follows p l (Call r k) -> follows p (l ++ [(r, o)]) (k o).
Proof.
  intros H. remember (Call r k) as q eqn:Hq. revert Hq.
  induction H as [p|r' k' o' l q H IH]; intros ->; cbn.
  - apply follows_call, follows_here.
  - apply follows_call, IH. reflexivity.
Qed.

Lemma follows_ret {R A} (a : A) l (q : prog R A) :
  follows (Ret a) l q -> l = [] /\ q = Ret a.
Proof. inversion 1; split; reflexivity. Qed.

(** Every task is a handler of some request, advanced along exactly its
    own entries of the log; entries belong to accepted tasks. *)
Lemma reachable_invariant st :
  reachable cfg st ->
  (forall i p, tasks st !! i = Some p ->
     exists payload, follows (post_get_file cfg payload) (own i (log st)) p)
  /\ (forall j r o, In (j, r, o) (log st) -> j < length (tasks st)).
Proof.
  unfold reachable. revert st.
  apply (rtc_ind_r (fun st =>
    (forall i p, tasks st !! i = Some p ->
       exists payload, follows (post_get_file cfg payload) (own i (log st)) p)
    /\ (forall j r o, In (j, r, o) (log st) -> j < length (tasks st)))).
  - split; [intros i p H; cbn [tasks initial] in H; now rewrite lookup_nil in H
           | intros j r o []].
  - intros st st' _ Hstep [IHt IHl].
    destruct Hstep as [st payload | st i r k o Hi]; cbn [tasks log].
    + split.
      * intros i p Hp. destruct (decide (i < length (tasks st))) as [Hlt|Hge].
        -- rewrite lookup_app_l in Hp by exact Hlt. now apply IHt.
        -- rewrite lookup_app_r in Hp by lia.
           destruct (i - length (tasks st)) as [|d] eqn:Hd; cbn in Hp; [|discriminate].
           injection Hp as <-. exists payload.
           rewrite own_none; [apply follows_here|].
           intros j r o Hin. apply IHl in Hin. lia.
      * intros j r o Hin. rewrite length_app. apply IHl in Hin. lia.
    + split.
      * intros i' p Hp. rewrite own_app. cbn [own].
        destruct (decide (i = i')) as [<-|Hne].
        -- rewrite list_lookup_insert_eq in Hp by (eapply lookup_lt_Some; exact Hi).
           injection Hp as <-.
           destruct (IHt i _ Hi) as [payload Hf]. exists payload.
           now apply follows_snoc.
        -- rewrite list_lookup_insert_ne in Hp by exact Hne.
           rewrite app_nil_r. now apply IHt.
      * intros j r' o' Hin. rewrite length_insert.
        apply in_app_or in Hin as [Hin|[Heq|[]]]; [now apply IHl in Hin|].
        injection Heq as <- _ _. eapply lookup_lt_Some; exact Hi.
Qed.

(** Where one handler can be: not started; stopped after its token
    request; suspended at the fetch that carries the token just granted
    to it; or stopped after that fetch. *)
Lemma handler_calls payload l q :
  follows (post_get_file cfg payload) l q ->
  (l = [] /\ q = post_get_file cfg payload)
  \/ (exists o, l = [(token_request cfg, o)] /\ first_call q = None)
  \/ (exists request resp items token,
        l = [ (token_request cfg, Responded resp) ]
        /\ first_call q
           = Some (content_request cfg (folder request) (fileName request) token)
        /\ hx_is_success resp = true
        /\ hx_json resp = Got (JObj items)
        /\ assoc (lit "access_token") items = Some token
        /\ truthy token = true)
  \/ (exists request resp items token o,
        l = [ (token_request cfg, Responded resp);
              (content_request cfg (folder request) (fileName request) token, o) ]
        /\ first_call q = None
        /\ hx_is_success resp = true
        /\ hx_json resp = Got (JObj items)
        /\ assoc (lit "access_token") items = Some token
        /\ truthy token = true).
Proof.
  unfold post_get_file.
  destruct (parse_FileRequest payload) as [errs|request].
  { intros H. apply follows_ret in H as [-> ->]. now left. }
  unfold respond, get_file, acquire_access_token, httpx_send.
  cbn [bind try_except]. intros H.
  inversion H as [|r k o l' q' Hrest]; subst; [now left|]. right.
  destruct o as [resp|msg]; cbn [bind try_except] in Hrest.
  2:{ apply follows_ret in Hrest as [-> ->]. left. eexists. split; reflexivity. }
  unfold hx_raise_for_status in Hrest.
  destruct (hx_is_success resp) eqn:Hok; cbn [bind try_except] in Hrest.
  2:{ apply follows_ret in Hrest as [-> ->]. left. eexists. split; reflexivity. }
  unfold hx_json_of in Hrest.
  destruct (hx_json resp) as [data|msg] eqn:Hjson; cbn [bind try_except] in Hrest.
  2:{ apply follows_ret in Hrest as [-> ->]. left. eexists. split; reflexivity. }
  destruct data as [ |b|z|f|s|arr|items];
    cbn [bind try_except lift py_get] in Hrest;
    try (apply follows_ret in Hrest as [-> ->]; left; eexists; split; reflexivity).
  destruct (assoc (lit "access_token") items) as [token|] eqn:Htok;
    cbn [bind try_except truthy negb] in Hrest.
  2:{ apply follows_ret in Hrest as [-> ->]. left. eexists. split; reflexivity. }
  destruct (truthy token) eqn:Htruthy; cbn [bind try_except negb] in Hrest.
  2:{ apply follows_ret in Hrest as [-> ->]. left. eexists. split; reflexivity. }
  unfold download_file_by_path, httpx_send in Hrest. cbn [bind try_except] in Hrest.
  right.
  inversion Hrest as [|r2 k2 o2 l2 q2 Hlast]; subst.
  { left. exists request, resp, items, token. now repeat split. }
  right. exists request, resp, items, token, o2.
  assert (l2 = [] /\ first_call q = None) as [-> Hq]; [|now repeat split].
  clear Hrest H.
  destruct o2 as [resp2|msg2]; cbn [bind try_except] in Hlast.
  2:{ now apply follows_ret in Hlast as [-> ->]. }
  unfold hx_raise_for_status in Hlast.
  destruct (hx_is_success resp2); cbn [bind try_except is_httpx_HTTPStatusError] in Hlast.
  - unfold hx_text_of in Hlast.
    destruct (hx_text resp2); cbn [bind try_except is_UnicodeDecodeError] in Hlast;
      now apply follows_ret in Hlast as [-> ->].
  - destruct (hx_status_code resp2 =? 404)%Z; cbn [bind try_except] in Hlast;
      now apply follows_ret in Hlast as [-> ->].
Qed.

Lemma handler_first_call payload :
  first_call (post_get_file cfg payload) = Some (token_request cfg)
  \/ first_call (post_get_file cfg payload) = None.
Proof.
  unfold post_get_file. destruct (parse_FileRequest payload); [now right | now left].
Qed.

(** C5: in every state the service can reach, whatever the interleaving
    of requests, a request is in one of four situations.  It has made no
    call yet, and the first call it can make is its token request; or it
    has stopped after its token request; or it has obtained a token in
    the answer to its own token request and is waiting for the content
    fetch, whose Authorization header carries exactly that token; or that
    fetch has completed and it makes no further call.  So a fetch begins
    only after the token exchange of the same request has been answered,
    and never uses a token obtained by another request. *)
Theorem each_request_fetches_with_its_own_token st i p :
  reachable cfg st ->
  tasks st !! i = Some p ->
  (own i (log st) = []
   /\ (first_call p = Some (token_request cfg) \/ first_call p = None))
  \/ (exists o, own i (log st) = [(token_request cfg, o)] /\ first_call p = None)
  \/ (exists folder file_name resp items token,
        own i (log st) = [ (token_request cfg, Responded resp) ]
        /\ first_call p = Some (content_request cfg folder file_name token)
        /\ hx_is_success resp = true
        /\ hx_json resp = Got (JObj items)
        /\ assoc (lit "access_token") items = Some token
        /\ truthy token = true
        /\ req_headers (content_request cfg folder file_name token)
           = [ (lit "Authorization", lit "Bearer " ++ py_str token) ])
  \/ (exists folder file_name resp items token o,
        own i (log st)
        = [ (token_request cfg, Responded resp);
            (content_request cfg folder file_name token, o) ]
        /\ first_call p = None
        /\ hx_is_success resp = true
        /\ hx_json resp = Got (JObj items)
        /\ assoc (lit "access_token") items = Some token
        /\ truthy token = true
        /\ req_headers (content_request cfg folder file_name token)
           = [ (lit "Authorization", lit "Bearer " ++ py_str token) ]).
Proof.
  intros Hreach Hp. apply reachable_invariant in Hreach as [Htasks _].
  destruct (Htasks i p Hp) as [payload Hf].
  apply handler_calls in Hf
    as [[Hl ->]
       |[(o & Hl & Hq)
        |[(request & resp & items & token & Hl & Hq & H1 & H2 & H3 & H4)
         |(request & resp & items & token & o & Hl & Hq & H1 & H2 & H3 & H4)]]].
  - left. split; [exact Hl | apply handler_first_call].
  - right. left. eauto.
  - right. right. left.
    exists (folder request), (fileName request), resp, items, token.
    now repeat split.
  - right. right. right.
    exists (folder request), (fileName request), resp, items, token, o.
    now repeat split.
Qed.

(** A log entry of a task that was never accepted does not exist. *)
Lemma no_calls_without_task st i :
  reachable cfg st -> tasks st !! i = None -> own i (log st) = [].
Proof.
  intros Hreach Hp. apply reachable_invariant in Hreach as [_ Hlog].
  apply own_none. intros j r o Hin Heq. subst j.
  apply Hlog in Hin. apply lookup_ge_None in Hp. lia.
Qed.

Lemma perform_reachable st a : reachable cfg st -> reachable cfg (perform cfg st a).
Proof.
  unfold reachable. intros H. destruct a as [payload|i o]; cbn [perform].
  - eapply rtc_r; [exact H | apply step_accept].
  - destruct (tasks st !! i) as [[ | |r k| ]|] eqn:Hi; try exact H.
    eapply rtc_r; [exact H | now apply step_resume].
Qed.

Lemma replay_reachable schedule : reachable cfg (replay cfg schedule).
Proof.
  unfold replay.
  assert (H : reachable cfg initial) by apply rtc_refl.
  revert H. generalize initial.
  induction schedule as [|a schedule IH]; intros st H; cbn [fold_left];
    [exact H | apply IH, perform_reachable, H].
Qed.

End ServerProperties.

Lemma each_request_fetches_with_its_own_token_witness :
  Server.own 1
    (Server.log (Server.replay (RT := sample_runtime) sample_config
                   (firstn 4 sample_schedule)))
  = [ (Service.token_request sample_config, Responded (hx_token "tok-B")) ]
  /\ exists p,
      Server.tasks (Server.replay (RT := sample_runtime) sample_config
                      (firstn 4 sample_schedule)) !! 1 = Some p
      /\ first_call p
         = Some (Service.content_request (RT := sample_runtime) sample_config
                   (Some []) (lit "b.txt") (JStr (lit "tok-B"))).
Proof.
  split; [reflexivity|].
  pose proof (each_request_fetches_with_its_own_token (RT := sample_runtime)
                sample_config
                (Server.replay (RT := sample_runtime) sample_config
                   (firstn 4 sample_schedule)) 1) as H.
  destruct (Server.tasks (Server.replay (RT := sample_runtime) sample_config
                            (firstn 4 sample_schedule)) !! 1) as [p|] eqn:Hp;
    [|vm_compute in Hp; discriminate].
  exists p. split; [reflexivity|].
  destruct (H p (replay_reachable sample_config _) eq_refl)
    as [[Hl _]
       |[(o & _ & Hq)
        |[(f & n & resp & items & token & _)
         |(f & n & resp & items & token & o & Hl & _)]]].
  - vm_compute in Hl. discriminate.
  - vm_compute in Hp. injection Hp as <-. discriminate Hq.
  - vm_compute in Hp. injection Hp as <-. reflexivity.
  - vm_compute in Hl. discriminate.
Defined.

(** Two overlapping requests: each fetch carries the token granted to its
    own request, and the log shows the order in which the calls completed. *)
Example overlapping_requests_use_their_own_tokens :
  map (fun e : Server.entry =>
         (fst (fst e), req_method (snd (fst e)), req_headers (snd (fst e))))
      (Server.log (Server.replay (RT := sample_runtime) sample_config sample_schedule))
  = [ (0, POST, []);
      (1, POST, []);
      (1, GET, [ (lit "Authorization", lit "Bearer tok-B") ]);
      (0, GET, [ (lit "Authorization", lit "Bearer tok-A") ]) ].
Proof. reflexivity. Qed.

(** * Further properties of the discovery utility *)

Section DiscoveryStages.
Context `{RT : Runtime}.
Import Discovery.

(** X1: a token response that is not an error status and carries a truthy
    [access_token] makes [acquire_token] return that value after its single
    POST to the tenant's token endpoint. *)
Theorem acquire_token_returns_granted_token net n t c s resp items token :
  net n (token_request t c s) = Responded resp ->
  rq_is_error resp = false ->
  rq_json resp = Got (JObj items) ->
  assoc (lit "access_token") items = Some token ->
  truthy token = true ->
  run net n (acquire_token t c s)
    = ([EvCall (token_request t c s) (Responded resp)], inr token)
  /\ req_method (token_request t c s) = POST
  /\ req_url (token_request t c s)
     = lit "https://login.microsoftonline.com/" ++ t ++ lit "/oauth2/v2.0/token"
  /\ req_data (token_request t c s)
     = [ (lit "client_id", c); (lit "client_secret", s);
         (lit "scope", lit "https://graph.microsoft.com/.default");
         (lit "grant_type", lit "client_credentials") ].
Proof.
  intros Hnet Hok Hjson Htok Htruthy. split; [|repeat split].
  unfold acquire_token, requests_send, rq_raise_for_status, rq_json_of.
  cbn [bind try_except run]. rewrite Hnet. cbn [bind try_except run].
  rewrite Hok. cbn [bind try_except run]. rewrite Hjson.
  cbn [bind try_except run py_get lift]. rewrite Htok.
  cbn [bind run]. rewrite Htruthy. reflexivity.
Qed.

(** X2: on a 4xx or 5xx answer of the token endpoint [acquire_token]
    raises a [RuntimeError] whose message is [Failed to obtain token: ]
    followed by the text of the HTTP error; the body of the response is
    not part of the message, because an error response is falsy and the
    [exc.response.text] alternative is never taken. *)
Theorem acquire_token_error_status_message net n t c s resp :
  net n (token_request t c s) = Responded resp ->
  rq_is_error resp = true ->
  run net n (acquire_token t c s)
  = ([EvCall (token_request t c s) (Responded resp)],
     inl (RuntimeError (lit "Failed to obtain token: " ++ rq_status_text resp))).
Proof.
  intros Hnet Herr.
  unfold acquire_token, requests_send, rq_raise_for_status.
  cbn [bind try_except run]. rewrite Hnet. cbn [bind try_except run].
  rewrite Herr. cbn [bind try_except run is_requests_HTTPError].
  unfold rq_bool. rewrite Herr. reflexivity.
Qed.

(** X3: a token response that is not an error status but whose JSON object
    has no [access_token], or a falsy one, makes [acquire_token] raise
    [RuntimeError("Token endpoint returned no access_token")]. *)
Theorem acquire_token_without_token net n t c s resp items :
  net n (token_request t c s) = Responded resp ->
  rq_is_error resp = false ->
  rq_json resp = Got (JObj items) ->
  (assoc (lit "access_token") items = None
   \/ exists v, assoc (lit "access_token") items = Some v /\ truthy v = false) ->
  run net n (acquire_token t c s)
  = ([EvCall (token_request t c s) (Responded resp)],
     inl (RuntimeError (lit "Token endpoint returned no access_token"))).
Proof.
  intros Hnet Hok Hjson Hcase.
  unfold acquire_token, requests_send, rq_raise_for_status, rq_json_of.
  cbn [bind try_except run]. rewrite Hnet. cbn [bind try_except run].
  rewrite Hok. cbn [bind try_except run]. rewrite Hjson.
  cbn [bind try_except run py_get lift].
  destruct Hcase as [->|(v & -> & Hv)]; cbn [bind run truthy negb].
  - reflexivity.
  - rewrite Hv. reflexivity.
Qed.

(** X4: whatever the token endpoint does, [acquire_token] either returns a
    truthy value or raises one of four kinds of exception: a
    [RuntimeError], the client's connection error, a JSON decoding error,
    or an [AttributeError] for a JSON body that is not an object.  It never
    returns an empty or null token. *)
Theorem acquire_token_outcomes net n t c s :
  match snd (run net n (acquire_token t c s)) with
  | inr token => truthy token = true
  | inl (RuntimeError _) => True
  | inl (RequestsConnectionError _) => True
  | inl (JSONDecodeError _) => True
  | inl (AttributeError _ _) => True
  | inl _ => False
  end.
Proof.
  unfold acquire_token, requests_send, rq_raise_for_status, rq_json_of.
  cbn [bind try_except run].
  destruct (net n (token_request t c s)) as [resp|msg]; cbn [bind try_except run snd];
    [|exact I].
  destruct (rq_is_error resp); cbn [bind try_except run snd is_requests_HTTPError];
    [exact I|].
  destruct (rq_json resp) as [data|msg]; cbn [bind try_except run snd]; [|exact I].
  destruct data as [ |b|z|f|str0|arr|items]; cbn [bind run snd py_get lift];
    try exact I.
  destruct (truthy (match assoc (lit "access_token") items with
                    | Some x => x
                    | None => JNull
                    end)) eqn:Htruthy; cbn [negb bind run snd];
    [exact Htruthy | exact I].
Qed.

(** X5: [get_site_id] asks Graph for
    [sites/{domain}:/sites/{site_name}] with the headers it was given and,
    when the answer is not an error status and its JSON object has a truthy
    [id], returns that [id]. *)
Theorem get_site_id_returns_id net n d sn h resp items site_id :
  net n (get_request (site_url d sn) h) = Responded resp ->
  rq_is_error resp = false ->
  rq_json resp = Got (JObj items) ->
  assoc (lit "id") items = Some site_id ->
  truthy site_id = true ->
  run net n (get_site_id d sn h)
    = ([EvCall (get_request (site_url d sn) h) (Responded resp)], inr site_id)
  /\ req_method (get_request (site_url d sn) h) = GET
  /\ req_url (get_request (site_url d sn) h)
     = lit "https://graph.microsoft.com/v1.0/sites/" ++ d ++ lit ":/sites/" ++ sn
  /\ req_headers (get_request (site_url d sn) h) = h.
Proof.
  intros Hnet Hok Hjson Hid Htruthy. split; [|repeat split].
  unfold get_site_id, requests_send, rq_raise_for_status, rq_json_of.
  cbn [bind try_except run]. rewrite Hnet. cbn [bind try_except run].
  rewrite Hok. cbn [bind try_except run]. rewrite Hjson.
  cbn [bind try_except run py_get lift]. rewrite Hid.
  cbn [bind run]. rewrite Htruthy. reflexivity.
Qed.

(** X6: [get_site_id] lets the HTTP error of a 4xx or 5xx answer
    propagate as it is, and raises
    [RuntimeError("Failed to obtain site id from response")] when the
    answer is a JSON object without an [id] or with a falsy one. *)
Theorem get_site_id_failures net n d sn h resp :
  net n (get_request (site_url d sn) h) = Responded resp ->
  (rq_is_error resp = true ->
     run net n (get_site_id d sn h)
     = ([EvCall (get_request (site_url d sn) h) (Responded resp)],
        inl (RequestsHTTPError (rq_status_text resp) resp)))
  /\ (forall items,
       rq_is_error resp = false ->
       rq_json resp = Got (JObj items) ->
       (assoc (lit "id") items = None
        \/ exists v, assoc (lit "id") items = Some v /\ truthy v = false) ->
     run net n (get_site_id d sn h)
     = ([EvCall (get_request (site_url d sn) h) (Responded resp)],
        inl (RuntimeError (lit "Failed to obtain site id from response")))).
Proof.
  intros Hnet.
  unfold get_site_id, requests_send, rq_raise_for_status, rq_json_of.
  cbn [bind try_except run]. rewrite Hnet. cbn [bind try_except run].
  split.
  - intros Herr. rewrite Herr. reflexivity.
  - intros items Hok Hjson Hcase. rewrite Hok. cbn [bind run]. rewrite Hjson.
    cbn [bind run py_get lift].
    destruct Hcase as [->|(v & -> & Hv)]; cbn [bind run truthy negb];
      [reflexivity | rewrite Hv; reflexivity].
Qed.

(** X7: edge cases of the drive listing.  A 4xx or 5xx answer propagates
    as the client's HTTP error; a JSON object without a [value] member
    counts as a site without drives; a first entry that is an object
    without [id] raises [KeyError('id')]. *)
Theorem drive_listing_edge_cases net n site_id h resp :
  net n (get_request (drives_url site_id) h) = Responded resp ->
  (rq_is_error resp = true ->
     run net n (get_default_drive_id site_id h)
     = ([EvCall (get_request (drives_url site_id) h) (Responded resp)],
        inl (RequestsHTTPError (rq_status_text resp) resp)))
  /\ (forall items,
       rq_is_error resp = false -> rq_json resp = Got (JObj items) ->
       assoc (lit "value") items = None ->
     run net n (get_default_drive_id site_id h)
     = ([EvCall (get_request (drives_url site_id) h) (Responded resp)],
        inl (RuntimeError (lit "The specified site has no drives"))))
  /\ (forall items fields rest,
       rq_is_error resp = false -> rq_json resp = Got (JObj items) ->
       assoc (lit "value") items = Some (JArr (JObj fields :: rest)) ->
       assoc (lit "id") fields = None ->
     run net n (get_default_drive_id site_id h)
     = ([EvCall (get_request (drives_url site_id) h) (Responded resp)],
        inl (KeyError (JStr (lit "id"))))).
Proof.
  intros Hnet.
  unfold get_default_drive_id, requests_send, rq_raise_for_status, rq_json_of.
  cbn [bind try_except run]. rewrite Hnet. cbn [bind try_except run].
  split; [|split].
  - intros Herr. rewrite Herr. reflexivity.
  - intros items Hok Hjson Hvalue. rewrite Hok. cbn [bind run]. rewrite Hjson.
    cbn [bind run py_get lift]. rewrite Hvalue. reflexivity.
  - intros items fields rest Hok Hjson Hvalue Hid. rewrite Hok. cbn [bind run].
    rewrite Hjson. cbn [bind run py_get lift]. rewrite Hvalue.
    cbn [truthy negb bind]. rewrite getitem_int_first.
    cbn [lift bind getitem_str]. rewrite Hid. reflexivity.
Qed.

(** The events of a stage are its single call. *)
Lemma acquire_token_events net n t c s evs res :
  run net n (acquire_token t c s) = (evs, res) ->
  evs = [EvCall (token_request t c s) (net n (token_request t c s))].
Proof.
  intros H. pose proof (acquire_token_one_call net n t c s) as E.
  now rewrite H in E.
Qed.

Lemma get_site_id_events net n d sn h evs res :
  run net n (get_site_id d sn h) = (evs, res) ->
  evs = [EvCall (get_request (site_url d sn) h) (net n (get_request (site_url d sn) h))].
Proof.
  intros H. pose proof (get_site_id_one_call net n d sn h) as E.
  now rewrite H in E.
Qed.

Lemma get_default_drive_id_events net n sid h evs res :
  run net n (get_default_drive_id sid h) = (evs, res) ->
  evs = [EvCall (get_request (drives_url sid) h) (net n (get_request (drives_url sid) h))].
Proof.
  intros H. pose proof (get_default_drive_id_one_call net n sid h) as E.
  now rewrite H in E.
Qed.

Lemma main_all_stages_succeed a net evs1 evs2 evs3 token site_id drive_id :
  run net 0 (acquire_token (tenant_id a) (client_id a) (client_secret a)) = (evs1, inr token) ->
  run net (length (calls_of evs1))
    (get_site_id (domain a) (site_name a) (auth_headers token)) = (evs2, inr site_id) ->
  run net (length (calls_of evs1) + length (calls_of evs2))
    (get_default_drive_id site_id (auth_headers token)) = (evs3, inr drive_id) ->
  run net 0 (main a)
  = (evs1 ++ evs2 ++ evs3
       ++ [ EvPrint Stdout (lit "SITE_ID=" ++ py_str site_id);
            EvPrint Stdout (lit "DRIVE_ID=" ++ py_str drive_id) ],
     inr 0%Z).
Proof.
  intros H1 H2 H3. unfold main.
  rewrite run_bind, run_try_except, run_bind, H1.
  cbn [run Nat.add app]. rewrite ?app_nil_r, ?Nat.add_0_r.
  rewrite run_bind, run_try_except, run_bind, H2.
  cbn [run Nat.add app]. rewrite ?app_nil_r, ?Nat.add_0_r.
  rewrite run_bind, run_try_except, run_bind, H3.
  cbn [run Nat.add app]. rewrite ?app_nil_r, ?Nat.add_0_r.
  cbn. rewrite ?app_nil_r, <- ?app_assoc. reflexivity.
Qed.

(** X8: when [acquire_token] raises a [RuntimeError], [main] prints the
    single line [Error acquiring token: <message>] on the error stream,
    nothing on standard output, returns 1 and makes no call beyond the
    token request. *)
Theorem main_token_runtime_error_reported a net evs1 msg :
  run net 0 (acquire_token (tenant_id a) (client_id a) (client_secret a))
    = (evs1, inl (RuntimeError msg)) ->
  exists evs,
    run net 0 (main a) = (evs, inr 1%Z)
    /\ calls_of evs = [ token_request (tenant_id a) (client_id a) (client_secret a) ]
    /\ printed Stderr evs = [ lit "Error acquiring token: " ++ msg ]
    /\ printed Stdout evs = [].
Proof.
  intros H1. pose proof (acquire_token_events _ _ _ _ _ _ _ H1) as ->.
  eexists. split.
  - rewrite (main_token_stage_error _ _ _ _ H1). reflexivity.
  - repeat split.
Qed.

(** X9: when the site lookup fails with any exception, after a token was
    obtained, [main] prints the single line
    [Error obtaining site ID: <text of the exception>] on the error
    stream, nothing on standard output, returns 1 and never lists the
    drives. *)
Theorem main_site_failure_reported a net evs1 evs2 token e :
  run net 0 (acquire_token (tenant_id a) (client_id a) (client_secret a)) = (evs1, inr token) ->
  run net (length (calls_of evs1))
    (get_site_id (domain a) (site_name a) (auth_headers token)) = (evs2, inl e) ->
  exists evs,
    run net 0 (main a) = (evs, inr 1%Z)
    /\ calls_of evs
       = [ token_request (tenant_id a) (client_id a) (client_secret a);
           get_request (site_url (domain a) (site_name a)) (auth_headers token) ]
    /\ printed Stderr evs = [ lit "Error obtaining site ID: " ++ exn_str e ]
    /\ printed Stdout evs = [].
Proof.
  intros H1 H2. eexists. split; [exact (main_site_stage_error _ _ _ _ _ _ H1 H2)|].
  pose proof (acquire_token_events _ _ _ _ _ _ _ H1) as ->.
  pose proof (get_site_id_events _ _ _ _ _ _ _ H2) as ->.
  repeat split.
Qed.

(** X10: when the drive lookup fails with any exception, after the token
    and the site were obtained, [main] prints the single line
    [Error obtaining drive ID: <text of the exception>] on the error
    stream, returns 1, and prints neither identifier: the site identifier
    already resolved is not printed either. *)
Theorem main_drive_failure_reported a net evs1 evs2 evs3 token site_id e :
  run net 0 (acquire_token (tenant_id a) (client_id a) (client_secret a)) = (evs1, inr token) ->
  run net (length (calls_of evs1))
    (get_site_id (domain a) (site_name a) (auth_headers token)) = (evs2, inr site_id) ->
  run net (length (calls_of evs1) + length (calls_of evs2))
    (get_default_drive_id site_id (auth_headers token)) = (evs3, inl e) ->
  exists evs,
    run net 0 (main a) = (evs, inr 1%Z)
    /\ calls_of evs
       = [ token_request (tenant_id a) (client_id a) (client_secret a);
           get_request (site_url (domain a) (site_name a)) (auth_headers token);
           get_request (drives_url site_id) (auth_headers token) ]
    /\ printed Stderr evs = [ lit "Error obtaining drive ID: " ++ exn_str e ]
    /\ printed Stdout evs = [].
Proof.
  intros H1 H2 H3. eexists.
  split; [exact (main_drive_stage_error _ _ _ _ _ _ _ _ H1 H2 H3)|].
  pose proof (acquire_token_events _ _ _ _ _ _ _ H1) as ->.
  pose proof (get_site_id_events _ _ _ _ _ _ _ H2) as ->.
  pose proof (get_default_drive_id_events _ _ _ _ _ _ H3) as ->.
  repeat split.
Qed.

(** X11: every run of [main], whatever the network does, makes at most
    three calls and ends in one of three ways: it returns 0 having printed
    two lines on standard output and nothing on the error stream; or it
    returns 1 having printed one line on the error stream and nothing on
    standard output; or an exception that is not a [RuntimeError] leaves it
    from the token stage, after one call and with nothing printed. *)
Theorem main_outcome_summary a net :
  exists evs res,
    run net 0 (main a) = (evs, res)
    /\ length (calls_of evs) <= 3
    /\ ((res = inr 0%Z /\ length (printed Stdout evs) = 2
         /\ printed Stderr evs = [] /\ length (calls_of evs) = 3)
        \/ (res = inr 1%Z /\ printed Stdout evs = []
            /\ length (printed Stderr evs) = 1)
        \/ (exists e, res = inl e /\ is_RuntimeError e = false
            /\ printed Stdout evs = [] /\ printed Stderr evs = []
            /\ length (calls_of evs) = 1)).
Proof.
  destruct (run net 0 (acquire_token (tenant_id a) (client_id a) (client_secret a)))
    as [evs1 [e|token]] eqn:H1.
  { pose proof (acquire_token_events _ _ _ _ _ _ _ H1) as ->.
    rewrite (main_token_stage_error _ _ _ _ H1).
    destruct (is_RuntimeError e) eqn:He; eexists; eexists;
      (split; [reflexivity|]); cbn; (split; [lia|]).
    - right. left. repeat split.
    - right. right. exists e. repeat split. exact He. }
  destruct (run net (length (calls_of evs1))
              (get_site_id (domain a) (site_name a) (auth_headers token)))
    as [evs2 [e|site_id]] eqn:H2.
  { rewrite (main_site_stage_error _ _ _ _ _ _ H1 H2).
    pose proof (acquire_token_events _ _ _ _ _ _ _ H1) as ->.
    pose proof (get_site_id_events _ _ _ _ _ _ _ H2) as ->.
    eexists; eexists; (split; [reflexivity|]); cbn; (split; [lia|]).
    right. left. repeat split. }
  destruct (run net (length (calls_of evs1) + length (calls_of evs2))
              (get_default_drive_id site_id (auth_headers token)))
    as [evs3 [e|drive_id]] eqn:H3.
  { rewrite (main_drive_stage_error _ _ _ _ _ _ _ _ H1 H2 H3).
    pose proof (acquire_token_events _ _ _ _ _ _ _ H1) as ->.
    pose proof (get_site_id_events _ _ _ _ _ _ _ H2) as ->.
    pose proof (get_default_drive_id_events _ _ _ _ _ _ H3) as ->.
    eexists; eexists; (split; [reflexivity|]); cbn; (split; [lia|]).
    right. left. repeat split. }
  rewrite (main_all_stages_succeed _ _ _ _ _ _ _ _ H1 H2 H3).
  pose proof (acquire_token_events _ _ _ _ _ _ _ H1) as ->.
  pose proof (get_site_id_events _ _ _ _ _ _ _ H2) as ->.
  pose proof (get_default_drive_id_events _ _ _ _ _ _ H3) as ->.
  eexists; eexists; (split; [reflexivity|]); cbn; (split; [lia|]).
  left. repeat split.
Qed.

End DiscoveryStages.

Lemma acquire_token_returns_granted_token_witness :
  run sample_network_three 0
    (Discovery.acquire_token (RT := sample_runtime)
       (lit "tenant-1") (lit "client-1") (lit "s3cret"))
  = ([EvCall (Discovery.token_request (lit "tenant-1") (lit "client-1") (lit "s3cret"))
        (Responded sample_token_reply)],
     inr (JStr (lit "tok-1"))).
Proof.
  eapply (acquire_token_returns_granted_token (RT := sample_runtime)
            sample_network_three 0 (lit "tenant-1") (lit "client-1") (lit "s3cret")
            sample_token_reply);
    reflexivity.
Defined.

Lemma acquire_token_error_status_message_witness :
  run (fun _ _ => Responded rq_denied) 0
    (Discovery.acquire_token (RT := sample_runtime)
       (lit "tenant-1") (lit "client-1") (lit "s3cret"))
  = ([EvCall (Discovery.token_request (lit "tenant-1") (lit "client-1") (lit "s3cret"))
        (Responded rq_denied)],
     inl (RuntimeError (lit "Failed to obtain token: 401 Error: Unauthorized"))).
Proof.
  apply (acquire_token_error_status_message (RT := sample_runtime)
           (fun _ _ => Responded rq_denied) 0
           (lit "tenant-1") (lit "client-1") (lit "s3cret") rq_denied);
    reflexivity.
Defined.

Lemma acquire_token_without_token_witness :
  run (fun _ _ => Responded rq_no_token) 0
    (Discovery.acquire_token (RT := sample_runtime)
       (lit "tenant-1") (lit "client-1") (lit "s3cret"))
  = ([EvCall (Discovery.token_request (lit "tenant-1") (lit "client-1") (lit "s3cret"))
        (Responded rq_no_token)],
     inl (RuntimeError (lit "Token endpoint returned no access_token"))).
Proof.
  eapply (acquire_token_without_token (RT := sample_runtime)
            (fun _ _ => Responded rq_no_token) 0
            (lit "tenant-1") (lit "client-1") (lit "s3cret") rq_no_token);
    try reflexivity.
  left. reflexivity.
Defined.

Lemma get_site_id_returns_id_witness :
  run sample_network_three 1
    (Discovery.get_site_id (RT := sample_runtime)
       (lit "contoso.sharepoint.com") (lit "Ventas") [])
  = ([EvCall (Discovery.get_request
                (lit "https://graph.microsoft.com/v1.0/sites/contoso.sharepoint.com:/sites/Ventas")
                [])
        (Responded sample_site_reply)],
     inr (JStr (lit "contoso.sharepoint.com,111,222"))).
Proof.
  eapply (get_site_id_returns_id (RT := sample_runtime) sample_network_three 1
            (lit "contoso.sharepoint.com") (lit "Ventas") [] sample_site_reply);
    reflexivity.
Defined.

Lemma get_site_id_failures_witness :
  snd (run (fun _ _ => Responded rq_not_found) 1
         (Discovery.get_site_id (RT := sample_runtime)
            (lit "contoso.sharepoint.com") (lit "Ventas") []))
    = inl (RequestsHTTPError (lit "404 Error: Not Found") rq_not_found)
  /\ snd (run (fun _ _ => Responded rq_site_without_id) 1
            (Discovery.get_site_id (RT := sample_runtime)
               (lit "contoso.sharepoint.com") (lit "Ventas") []))
     = inl (RuntimeError (lit "Failed to obtain site id from response")).
Proof.
  destruct (get_site_id_failures (RT := sample_runtime)
              (fun _ _ => Responded rq_not_found) 1
              (lit "contoso.sharepoint.com") (lit "Ventas") [] rq_not_found eq_refl)
    as (Hstatus & _).
  destruct (get_site_id_failures (RT := sample_runtime)
              (fun _ _ => Responded rq_site_without_id) 1
              (lit "contoso.sharepoint.com") (lit "Ventas") [] rq_site_without_id eq_refl)
    as (_ & Hnoid).
  split.
  - rewrite Hstatus; reflexivity.
  - rewrite (Hnoid [ (lit "name", JStr (lit "Ventas")) ]); try reflexivity.
    left. reflexivity.
Defined.

Lemma drive_listing_edge_cases_witness :
  snd (run (fun _ _ => Responded rq_not_found) 2
         (Discovery.get_default_drive_id (RT := sample_runtime) (JStr (lit "site-1")) []))
    = inl (RequestsHTTPError (lit "404 Error: Not Found") rq_not_found)
  /\ snd (run (fun _ _ => Responded rq_no_value) 2
            (Discovery.get_default_drive_id (RT := sample_runtime) (JStr (lit "site-1")) []))
     = inl (RuntimeError (lit "The specified site has no drives"))
  /\ snd (run (fun _ _ => Responded
                   (sample_drives_reply [ JObj [ (lit "name", JStr (lit "Documents")) ] ])) 2
            (Discovery.get_default_drive_id (RT := sample_runtime) (JStr (lit "site-1")) []))
     = inl (KeyError (JStr (lit "id"))).
Proof.
  destruct (drive_listing_edge_cases (RT := sample_runtime)
              (fun _ _ => Responded rq_not_found) 2 (JStr (lit "site-1")) []
              rq_not_found eq_refl) as (Hstatus & _ & _).
  destruct (drive_listing_edge_cases (RT := sample_runtime)
              (fun _ _ => Responded rq_no_value) 2 (JStr (lit "site-1")) []
              rq_no_value eq_refl) as (_ & Hnovalue & _).
  destruct (drive_listing_edge_cases (RT := sample_runtime)
              (fun _ _ => Responded
                 (sample_drives_reply [ JObj [ (lit "name", JStr (lit "Documents")) ] ]))
              2 (JStr (lit "site-1")) []
              (sample_drives_reply [ JObj [ (lit "name", JStr (lit "Documents")) ] ])
              eq_refl) as (_ & _ & Hnoid).
  split; [|split].
  - rewrite Hstatus; reflexivity.
  - rewrite (Hnovalue [ (lit "@odata.context", JStr (lit "drives")) ]); reflexivity.
  - rewrite (Hnoid [ (lit "value", JArr [ JObj [ (lit "name", JStr (lit "Documents")) ] ]) ]
               [ (lit "name", JStr (lit "Documents")) ] []);
      reflexivity.
Defined.

Lemma main_token_runtime_error_reported_witness :
  exists evs,
    run (fun _ _ => Responded rq_denied) 0
      (Discovery.main (RT := sample_runtime) sample_args) = (evs, inr 1%Z)
    /\ printed Stderr evs
       = [ lit "Error acquiring token: Failed to obtain token: 401 Error: Unauthorized" ]
    /\ printed Stdout evs = [].
Proof.
  edestruct (main_token_runtime_error_reported (RT := sample_runtime) sample_args
               (fun _ _ => Responded rq_denied))
    as (evs & Hrun & _ & Herr & Hout); [reflexivity|].
  exists evs. split; [exact Hrun|]. split; [exact Herr | exact Hout].
Defined.

Lemma main_site_failure_reported_witness :
  exists evs,
    run (scripted_network rq_site_without_id rq_no_value) 0
      (Discovery.main (RT := sample_runtime) sample_args) = (evs, inr 1%Z)
    /\ length (calls_of evs) = 2
    /\ printed Stderr evs
       = [ lit "Error obtaining site ID: Failed to obtain site id from response" ]
    /\ printed Stdout evs = [].
Proof.
  edestruct (main_site_failure_reported (RT := sample_runtime) sample_args
               (scripted_network rq_site_without_id rq_no_value))
    as (evs & Hrun & Hcalls & Herr & Hout); [reflexivity | reflexivity |].
  exists evs. split; [exact Hrun|]. split; [now rewrite Hcalls|].
  split; [exact Herr | exact Hout].
Defined.

Lemma main_drive_failure_reported_witness :
  exists evs,
    run (scripted_network sample_site_reply rq_no_value) 0
      (Discovery.main (RT := sample_runtime) sample_args) = (evs, inr 1%Z)
    /\ length (calls_of evs) = 3
    /\ printed Stderr evs
       = [ lit "Error obtaining drive ID: The specified site has no drives" ]
    /\ printed Stdout evs = [].
Proof.
  edestruct (main_drive_failure_reported (RT := sample_runtime) sample_args
               (scripted_network sample_site_reply rq_no_value))
    as (evs & Hrun & Hcalls & Herr & Hout);
    [reflexivity | reflexivity | reflexivity |].
  exists evs. split; [exact Hrun|]. split; [now rewrite Hcalls|].
  split; [exact Herr | exact Hout].
Defined.

(** * Further properties of the service *)

(** ** Whitespace at the ends of a string *)

Lemma lstrip_all_space (s : str) : forallb is_space s = true -> lstrip s = [].
Proof.
  induction s as [|c s IH]; cbn; [reflexivity|].
  intros H. apply andb_prop in H as [Hc Hs]. rewrite Hc. now apply IH.
Qed.

Lemma lstrip_app_space (l s : str) :
  forallb is_space l = true -> lstrip (l ++ s) = lstrip s.
Proof.
  induction l as [|c l IH]; cbn; [reflexivity|].
  intros H. apply andb_prop in H as [Hc Hl]. rewrite Hc. now apply IH.
Qed.

Lemma forallb_rev {A} (f : A -> bool) (l : list A) :
  forallb f l = true -> forallb f (rev l) = true.
Proof.
  rewrite !forallb_forall. intros H x Hx. apply H. now apply in_rev.
Qed.

Lemma strip_padded (l f r : str) :
  trimmed f = true ->
  forallb is_space l = true -> forallb is_space r = true ->
  strip (l ++ f ++ r) = f.
Proof.
  unfold trimmed. intros Hf Hl Hr.
  destruct f as [|c f']; [discriminate|].
  destruct (rev (c :: f')) as [|d g] eqn:Hrev; [discriminate|].
  apply andb_prop in Hf as [Hc Hd].
  apply negb_true_iff in Hc. apply negb_true_iff in Hd.
  unfold strip, rstrip. rewrite lstrip_app_space by exact Hl.
  cbn [app lstrip]. rewrite Hc.
  change (c :: f' ++ r) with ((c :: f') ++ r).
  rewrite rev_app_distr, lstrip_app_space by (now apply forallb_rev).
  rewrite Hrev. cbn [lstrip]. rewrite Hd, <- Hrev. apply rev_involutive.
Qed.

Lemma has_space_false_iff (s : str) : has_space s = false <-> ~ In SPACE s.
Proof.
  unfold has_space. split.
  - intros H Hin. assert (existsb (N.eqb SPACE) s = true) as E.
    { apply existsb_exists. exists SPACE. split; [exact Hin | apply N.eqb_refl]. }
    congruence.
  - intros H. destruct (existsb (N.eqb SPACE) s) eqn:E; [|reflexivity].
    apply existsb_exists in E as (x & Hx & Heq). apply N.eqb_eq in Heq. subst x.
    contradiction.
Qed.

Section PathEdgeCases.
Import Service.

(** X12: a folder that is not empty but consists of whitespace only is
    taken as given yet stripped to nothing, so the remote path starts with
    two slashes: [//{file_name}]. *)
Theorem whitespace_only_folder_gives_double_slash (f n : str) :
  f <> [] -> forallb is_space f = true ->
  remote_path (Some f) n = lit "//" ++ n
  /\ encoded_path (Some f) n = lit "//" ++ percent_encode_spaces n.
Proof.
  intros Hne Hws.
  assert (Hpath : remote_path (Some f) n = lit "//" ++ n).
  { unfold remote_path. destruct f as [|c f']; [congruence|].
    cbn [str_truthy]. unfold strip, rstrip.
    rewrite (lstrip_all_space _ Hws). reflexivity. }
  split; [exact Hpath|].
  unfold encoded_path. rewrite Hpath, replace_space_charwise.
  now rewrite percent_encode_spaces_app.
Qed.

(** X13: whitespace around a folder name does not change the path: for a
    folder name that neither starts nor ends with whitespace, padding it
    with whitespace on either side yields the same [/{folder}/{file_name}]
    as the name itself. *)
Theorem folder_padding_is_ignored (l f r n : str) :
  trimmed f = true ->
  forallb is_space l = true -> forallb is_space r = true ->
  remote_path (Some (l ++ f ++ r)) n = lit "/" ++ f ++ lit "/" ++ n
  /\ remote_path (Some (l ++ f ++ r)) n = remote_path (Some f) n.
Proof.
  intros Hf Hl Hr.
  assert (Hpadded : remote_path (Some (l ++ f ++ r)) n = lit "/" ++ f ++ lit "/" ++ n).
  { unfold remote_path. rewrite (strip_padded l f r Hf Hl Hr).
    destruct (l ++ f ++ r) as [|c w] eqn:Hw; [|reflexivity].
    apply app_eq_nil in Hw as [_ Hw]. apply app_eq_nil in Hw as [-> _].
    discriminate. }
  split; [exact Hpadded|]. rewrite Hpadded.
  pose proof (strip_padded [] f [] Hf eq_refl eq_refl) as Hself.
  cbn [app] in Hself. rewrite app_nil_r in Hself.
  unfold remote_path. rewrite Hself.
  destruct f; [discriminate | reflexivity].
Qed.

(** X14: the encoded path never contains a space, and a path that has no
    space to begin with is sent unchanged. *)
Theorem encoded_path_has_no_space (folder : option str) (n : str) :
  has_space (encoded_path folder n) = false
  /\ (has_space (remote_path folder n) = false ->
      encoded_path folder n = remote_path folder n).
Proof.
  unfold encoded_path. rewrite replace_space_charwise. split.
  - apply has_space_false_iff, percent_encode_spaces_no_space.
  - intros H. apply percent_encode_spaces_id. now apply has_space_false_iff.
Qed.

Lemma remote_path_prefix (folder : option str) :
  exists pre, forall n, remote_path folder n = pre ++ n.
Proof.
  destruct folder as [[|c f]|].
  - exists (lit "/"). reflexivity.
  - exists (lit "/" ++ strip (c :: f) ++ lit "/"). intros n.
    unfold remote_path. cbn [str_truthy]. now rewrite <- !app_assoc.
  - exists (lit "/"). reflexivity.
Qed.

(** X15: only spaces are escaped, the percent sign is not: a file name
    with a space and the file name with the literal text [%20] in its
    place are sent to Graph as the same path. *)
Theorem space_and_literal_percent20_collide (folder : option str) (s t : str) :
  encoded_path folder (s ++ lit " " ++ t) = encoded_path folder (s ++ lit "%20" ++ t).
Proof.
  destruct (remote_path_prefix folder) as [pre Hpre].
  unfold encoded_path. rewrite !Hpre, !replace_space_charwise.
  rewrite !percent_encode_spaces_app. reflexivity.
Qed.

End PathEdgeCases.

Lemma whitespace_only_folder_gives_double_slash_witness :
  Service.remote_path (Some (lit "  ")) (lit "a b.txt") = lit "//a b.txt"
  /\ Service.encoded_path (Some (lit "  ")) (lit "a b.txt") = lit "//a%20b.txt".
Proof.
  destruct (whitespace_only_folder_gives_double_slash (lit "  ") (lit "a b.txt"))
    as (Hpath & Henc); [discriminate | reflexivity |].
  split; [exact Hpath | exact Henc].
Defined.

Lemma folder_padding_is_ignored_witness :
  Service.remote_path (Some (lit "  My Docs ")) (lit "a.txt") = lit "/My Docs/a.txt".
Proof.
  apply (folder_padding_is_ignored (lit "  ") (lit "My Docs") (lit " ") (lit "a.txt"));
    reflexivity.
Defined.

Lemma encoded_path_has_no_space_witness :
  Service.encoded_path (Some (lit "Reports")) (lit "report.txt") = lit "/Reports/report.txt".
Proof.
  destruct (encoded_path_has_no_space (Some (lit "Reports")) (lit "report.txt"))
    as (_ & Hid).
  rewrite Hid; reflexivity.
Defined.

(** Both [a b.txt] and [a%20b.txt] are requested as [/a%20b.txt]. *)
Example percent20_collision_sample :
  Service.encoded_path None (lit "a b.txt") = lit "/a%20b.txt"
  /\ Service.encoded_path None (lit "a%20b.txt") = lit "/a%20b.txt".
Proof. split; reflexivity. Qed.

(** ** Start-up *)

Section StartupSuccess.
Import Service.

Lemma get_env_variable_inr_iff environ name value :
  get_env_variable environ name = inr value
  <-> environ !! name = Some value /\ value <> [].
Proof.
  unfold get_env_variable. destruct (environ !! name) as [[|c v]|]; split.
  - discriminate.
  - intros [H Hne]. injection H as <-. congruence.
  - intros H. injection H as <-. split; [reflexivity | discriminate].
  - intros [H _]. now injection H as <-.
  - discriminate.
  - intros [H _]. discriminate.
Qed.

(** X16: start-up succeeds exactly when each of the five variables is
    present with a non-empty value, and the configuration it builds holds
    those five values unchanged. *)
Theorem startup_succeeds_exactly_when_all_set environ cfg :
  startup environ = inr cfg
  <-> (environ !! lit "TENANT_ID" = Some (TENANT_ID cfg) /\ TENANT_ID cfg <> [])
      /\ (environ !! lit "CLIENT_ID" = Some (CLIENT_ID cfg) /\ CLIENT_ID cfg <> [])
      /\ (environ !! lit "CLIENT_SECRET" = Some (CLIENT_SECRET cfg)
          /\ CLIENT_SECRET cfg <> [])
      /\ (environ !! lit "SITE_ID" = Some (SITE_ID cfg) /\ SITE_ID cfg <> [])
      /\ (environ !! lit "DRIVE_ID" = Some (DRIVE_ID cfg) /\ DRIVE_ID cfg <> []).
Proof.
  rewrite <- !get_env_variable_inr_iff. unfold startup. split.
  - intros H.
    destruct (get_env_variable environ (lit "TENANT_ID")) as [e|v1]; [discriminate|].
    destruct (get_env_variable environ (lit "CLIENT_ID")) as [e|v2]; [discriminate|].
    destruct (get_env_variable environ (lit "CLIENT_SECRET")) as [e|v3]; [discriminate|].
    destruct (get_env_variable environ (lit "SITE_ID")) as [e|v4]; [discriminate|].
    destruct (get_env_variable environ (lit "DRIVE_ID")) as [e|v5]; [discriminate|].
    injection H as <-. repeat split.
  - intros (-> & -> & -> & -> & ->). now destruct cfg.
Qed.

End StartupSuccess.

Lemma startup_succeeds_exactly_when_all_set_witness :
  Service.startup sample_environ = inr sample_config.
Proof.
  apply (startup_succeeds_exactly_when_all_set sample_environ sample_config).
  repeat split; try reflexivity; discriminate.
Defined.

(** ** The handler *)

Section HandlerOutcomes.
Context `{RT : Runtime}.
Import Service.
Variable cfg : config.

(** X17: a request whose token exchange yields a token and whose fetch
    yields decodable text is answered 200 with that text as plain text,
    after exactly two calls: the token request, then the content request
    carrying that token. *)
Theorem service_success_end_to_end payload request net resp items token file text :
  parse_FileRequest payload = inr request ->
  net 0 (token_request cfg) = Responded resp ->
  hx_is_success resp = true ->
  hx_json resp = Got (JObj items) ->
  assoc (lit "access_token") items = Some token ->
  truthy token = true ->
  net 1 (content_request cfg (folder request) (fileName request) token)
    = Responded file ->
  hx_is_success file = true ->
  hx_text file = Got text ->
  run net 0 (post_get_file cfg payload)
  = ([ EvCall (token_request cfg) (Responded resp);
       EvCall (content_request cfg (folder request) (fileName request) token)
         (Responded file) ],
     inr {| status := 200; body := PlainText text |}).
Proof.
  intros Hparse Hnet Hok Hjson Htok Htruthy Hfetch Hfok Htext.
  unfold post_get_file. rewrite Hparse.
  rewrite (get_file_after_token cfg request net 0 resp items token
             Hnet Hok Hjson Htok Htruthy).
  rewrite (download_success cfg _ _ _ net 1 file text Hfetch Hfok Htext).
  reflexivity.
Qed.

(** X18: a 2xx token response whose body is not JSON, or is JSON but not
    an object, is not turned into an [HTTPException]: the decoding error or
    the [AttributeError] leaves [acquire_access_token], the fetch is not
    attempted, and the request is answered 500 without any detail. *)
Theorem token_body_not_an_object_is_unhandled payload request net resp :
  parse_FileRequest payload = inr request ->
  net 0 (token_request cfg) = Responded resp ->
  hx_is_success resp = true ->
  (forall msg, hx_json resp = Fails msg ->
     run net 0 (acquire_access_token cfg)
       = ([EvCall (token_request cfg) (Responded resp)], inl (JSONDecodeError msg))
     /\ run net 0 (post_get_file cfg payload)
        = ([EvCall (token_request cfg) (Responded resp)],
           inr {| status := 500; body := PlainText (lit "Internal Server Error") |}))
  /\ (forall v, hx_json resp = Got v ->
       match v with JObj _ => False | _ => True end ->
     run net 0 (acquire_access_token cfg)
       = ([EvCall (token_request cfg) (Responded resp)],
          inl (AttributeError v (lit "get")))
     /\ run net 0 (post_get_file cfg payload)
        = ([EvCall (token_request cfg) (Responded resp)],
           inr {| status := 500; body := PlainText (lit "Internal Server Error") |})).
Proof.
  intros Hparse Hnet Hok. unfold post_get_file. rewrite Hparse.
  unfold respond, get_file, acquire_access_token, httpx_send, hx_raise_for_status,
    hx_json_of.
  cbn [bind try_except run]. rewrite Hnet. cbn [bind try_except run].
  rewrite Hok. cbn [bind try_except run].
  split.
  - intros msg Hjson. rewrite Hjson. split; reflexivity.
  - intros v Hjson Hv. rewrite Hjson.
    destruct v; try contradiction; split; reflexivity.
Qed.

(** X19: when Graph cannot be reached at all during the fetch, the
    download raises the client's transport error and no [HTTPException]:
    the request is answered 500 with the generic text, and the upstream
    message is not part of the answer. *)
Theorem fetch_without_response_is_unhandled payload request net resp items token msg :
  parse_FileRequest payload = inr request ->
  net 0 (token_request cfg) = Responded resp ->
  hx_is_success resp = true ->
  hx_json resp = Got (JObj items) ->
  assoc (lit "access_token") items = Some token ->
  truthy token = true ->
  net 1 (content_request cfg (folder request) (fileName request) token) = Failed msg ->
  run net 1 (download_file_by_path cfg (folder request) (fileName request) token)
    = ([EvCall (content_request cfg (folder request) (fileName request) token)
          (Failed msg)],
       inl (TransportError msg))
  /\ run net 0 (post_get_file cfg payload)
     = ([ EvCall (token_request cfg) (Responded resp);
          EvCall (content_request cfg (folder request) (fileName request) token)
            (Failed msg) ],
        inr {| status := 500; body := PlainText (lit "Internal Server Error") |}).
Proof.
  intros Hparse Hnet Hok Hjson Htok Htruthy Hfetch. split.
  - unfold download_file_by_path, httpx_send. cbn [bind try_except run].
    rewrite Hfetch. reflexivity.
  - unfold post_get_file. rewrite Hparse.
    rewrite (get_file_after_token cfg request net 0 resp items token
               Hnet Hok Hjson Htok Htruthy).
    unfold respond, download_file_by_path, httpx_send. cbn [bind try_except run].
    rewrite Hfetch. reflexivity.
Qed.



End HandlerOutcomes.

Lemma service_success_end_to_end_witness :
  run (service_network (Responded (hx_token "tok-1")) (Responded (hx_file "hello"))) 0
    (Service.post_get_file (RT := sample_runtime) sample_config sample_payload)
  = ([ EvCall (Service.token_request sample_config) (Responded (hx_token "tok-1"));
       EvCall (Service.content_request (RT := sample_runtime) sample_config
                 (Some (lit "Reports")) (lit "report.txt") (JStr (lit "tok-1")))
         (Responded (hx_file "hello")) ],
     inr {| Service.status := 200; Service.body := Service.PlainText (lit "hello") |}).
Proof.
  eapply (service_success_end_to_end (RT := sample_runtime) sample_config
            sample_payload sample_request
            (service_network (Responded (hx_token "tok-1")) (Responded (hx_file "hello")))
            (hx_token "tok-1"));
    reflexivity.
Defined.

Lemma token_body_not_an_object_is_unhandled_witness :
  run (service_network (Responded hx_token_not_json) (Responded (hx_file "hello"))) 0
    (Service.post_get_file (RT := sample_runtime) sample_config sample_payload)
  = ([ EvCall (Service.token_request sample_config) (Responded hx_token_not_json) ],
     inr {| Service.status := 500;
            Service.body := Service.PlainText (lit "Internal Server Error") |}).
Proof.
  destruct (token_body_not_an_object_is_unhandled (RT := sample_runtime) sample_config
              sample_payload sample_request
              (service_network (Responded hx_token_not_json) (Responded (hx_file "hello")))
              hx_token_not_json eq_refl eq_refl eq_refl) as (Hfails & _).
  apply (Hfails (lit "Expecting value")). reflexivity.
Defined.

Lemma fetch_without_response_is_unhandled_witness :
  run (service_network (Responded (hx_token "tok-1")) (Failed (lit "connection reset"))) 0
    (Service.post_get_file (RT := sample_runtime) sample_config sample_payload)
  = ([ EvCall (Service.token_request sample_config) (Responded (hx_token "tok-1"));
       EvCall (Service.content_request (RT := sample_runtime) sample_config
                 (Some (lit "Reports")) (lit "report.txt") (JStr (lit "tok-1")))
         (Failed (lit "connection reset")) ],
     inr {| Service.status := 500;
            Service.body := Service.PlainText (lit "Internal Server Error") |}).
Proof.
  eapply (fetch_without_response_is_unhandled (RT := sample_runtime) sample_config
            sample_payload sample_request
            (service_network (Responded (hx_token "tok-1"))
               (Failed (lit "connection reset")))
            (hx_token "tok-1"));
    reflexivity.
Defined.

